(** * House-price inference server: [utils.py] and [main.py]

    A shallow embedding of the two source files of the inference server and
    the properties stated about them.

    - Python values that reach the handler ([request.json]) are the
      inductive [pyval].
    - A pandas frame is a list of column labels and a list of rows.
    - Objects live in a heap (a list indexed by location), so that sharing
      between the caller's [data] and the callee's [house_data] is explicit.
    - The module globals [model] and [scaler], the heap and the log of files
      read from disk form the state of the process; code runs in a state and
      exception monad over it.
    - The fitted scaler and the trained model are artifacts produced
      elsewhere: their methods [transform] and [predict] are fields of the
      records [Scaler] and [Model].
    - The floating-point layer is a parameter as well: the class
      [Numerics] holds the two float types and the library functions
      [np.expm1], [float] and [round] on them, so that what is proved of the
      handler holds for the floats of numpy and Python.  The instance
      [real_numerics] idealises floats as real numbers ([exp y - 1], rounding
      to the nearest hundredth, ties to the even one); only the statements
      about the sign and the order of prices use it. *)

From Stdlib Require Import List String Ascii ZArith Bool Arith Lia.
From Stdlib Require Import Permutation Reals Lra DecimalString.
Import ListNotations.

Set Implicit Arguments.
Set Warnings "-register-all".

Local Open Scope string_scope.
Local Open Scope list_scope.

(** ** The floating-point layer *)

(** The floats of numpy and Python and the three library functions that
    lines 17 and 18 of [main.py] apply to them. *)
Class Numerics : Type := mkNumerics {
  npfloat : Type;
  pyfloat : Type;
  expm1 : npfloat -> npfloat;
  py_float : npfloat -> pyfloat;
  py_round : pyfloat -> nat -> pyfloat
}.

(** ** [repr] of a string *)

Definition double_quote : ascii := ascii_of_nat 34.
Definition single_quote : ascii := ascii_of_nat 39.
Definition backslash : ascii := ascii_of_nat 92.

Fixpoint contains (c : ascii) (s : string) : bool :=
  match s with
  | EmptyString => false
  | String c' t => Ascii.eqb c c' || contains c t
  end.

Definition hex_digit (n : nat) : ascii :=
  nth n ["0"; "1"; "2"; "3"; "4"; "5"; "6"; "7"; "8"; "9";
         "a"; "b"; "c"; "d"; "e"; "f"]%char "0"%char.

(** One character inside quotes [q]: the quote and the backslash are
    escaped, tab, newline and carriage return have their letters, the other
    control characters their code; bytes above 127 are taken to belong to
    printable characters and kept. *)
Definition repr_char (q c : ascii) : string :=
  let n := nat_of_ascii c in
  if Ascii.eqb c q || Ascii.eqb c backslash then String backslash (String c EmptyString)
  else if Nat.eqb n 9 then String backslash "t"
  else if Nat.eqb n 10 then String backslash "n"
  else if Nat.eqb n 13 then String backslash "r"
  else if Nat.ltb n 32 || Nat.eqb n 127
       then String backslash
              (String "x" (String (hex_digit (n / 16))
                                  (String (hex_digit (n mod 16)) EmptyString)))
  else String c EmptyString.

Fixpoint repr_chars (q : ascii) (s : string) : string :=
  match s with
  | EmptyString => EmptyString
  | String c t => (repr_char q c ++ repr_chars q t)%string
  end.

(** [repr(s)]: single quotes, unless [s] has one and no double quote. *)
Definition py_repr (s : string) : string :=
  let q := if contains single_quote s && negb (contains double_quote s)
           then double_quote else single_quote in
  String q (repr_chars q s ++ String q EmptyString)%string.

(** ** Exceptions and results *)

(** Exceptions (instances of [Exception]) that the embedded code can see.
    [LibraryError cls msg] is an exception of class [cls] raised by
    scikit-learn or Keras from [transform] and [predict], with [msg] its
    [str]; [BadRequest] is werkzeug's HTTP exception, raised by
    [request.json] when the body cannot be decoded. *)
Inductive PyException : Type :=
| KeyError (msg : string)
| IndexError (msg : string)
| TypeError (msg : string)
| LibraryError (cls msg : string)
| BadRequest (description : string).

(** [str(e)]; of a [KeyError] it is the [repr] of its argument. *)
Definition py_str (e : PyException) : string :=
  match e with
  | KeyError msg => py_repr msg
  | IndexError msg => msg
  | TypeError msg => msg
  | LibraryError _ msg => msg
  | BadRequest d => ("400 Bad Request: " ++ d)%string
  end.

Inductive Result (A : Type) : Type :=
| Ok (a : A)
| Raise (e : PyException).
Arguments Ok {A} a.
Arguments Raise {A} e.

Definition rbind {A B} (r : Result A) (f : A -> Result B) : Result B :=
  match r with
  | Ok a => f a
  | Raise e => Raise e
  end.

Section Embedding.

Context {N : Numerics}.

(** ** Python values *)

(** What [request.json] can evaluate to: the image of a JSON document. *)
Inductive pyval : Type :=
| PNone
| PBool (b : bool)
| PInt (n : Z)
| PFloat (x : pyfloat)
| PStr (s : string)
| PList (xs : list pyval)
| PDict (kvs : list (string * pyval)).

(** The keys of a Python dict are pairwise distinct. *)
Definition dict_keys_distinct (kvs : list (string * pyval)) : Prop :=
  NoDup (map fst kvs).

(** A numeric cell: what a feature record maps feature names to. *)
Definition is_numeric (v : pyval) : bool :=
  match v with
  | PInt _ | PFloat _ => true
  | _ => false
  end.

(** ** pandas frames *)

(** A column label: a dict key, or a position when the frame was built from
    a sequence or a scalar. *)
Inductive label : Type :=
| LStr (s : string)
| LPos (i : nat).

Definition label_eq_dec (a b : label) : {a = b} + {a <> b}.
Proof.
  decide equality.
  - apply string_dec.
  - apply Nat.eq_dec.
Defined.

Definition label_eqb (a b : label) : bool :=
  if label_eq_dec a b then true else false.

Definition label_mem (a : label) (l : list label) : bool :=
  existsb (label_eqb a) l.

Record DataFrame : Type := mkFrame {
  columns : list label;
  rows : list (list pyval)
}.

(** [pd.DataFrame([x])]: a mapping gives one row under its keys, a sequence
    one row under positions, anything else one cell under position 0. *)
Definition pd_DataFrame1 (x : pyval) : DataFrame :=
  match x with
  | PDict kvs => mkFrame (map (fun kv => LStr (fst kv)) kvs) [map snd kvs]
  | PList xs => mkFrame (map LPos (seq 0 (List.length xs))) [xs]
  | _ => mkFrame [LPos 0] [[x]]
  end.

(** [df[c] = v] with a scalar [v]: every cell under [c] becomes [v]; a label
    that is not a column yet is appended on the right. *)
Definition overwrite (c : label) (v : pyval) (cols : list label)
           (row : list pyval) : list pyval :=
  map (fun lx => if label_eqb c (fst lx) then v else snd lx) (combine cols row).

Definition setitem_scalar (df : DataFrame) (c : label) (v : pyval) : DataFrame :=
  if label_mem c (columns df)
  then mkFrame (columns df) (map (overwrite c v (columns df)) (rows df))
  else mkFrame (columns df ++ [c])%list (map (fun r => (r ++ [v])%list) (rows df)).

(** The cells of a row under label [c], left to right. *)
Definition cells_under (c : label) (cols : list label) (row : list pyval)
  : list (label * pyval) :=
  filter (fun lx => label_eqb c (fst lx)) (combine cols row).

(** [repr] of a label, and the text of pandas' [KeyError] for labels that
    are not columns (pandas words it differently when no label at all is a
    column; [preprocess_single_house] never reaches either case). *)
Definition label_repr (c : label) : string :=
  match c with
  | LStr s => py_repr s
  | LPos i => NilEmpty.string_of_uint (Nat.to_uint i)
  end.

Definition not_in_index (missing : list label) : string :=
  ("[" ++ String.concat ", " (map label_repr missing) ++ "] not in index")%string.

(** [df[names]] with a list of labels: the columns under these labels, in
    the order of [names]; [KeyError] when a label is not a column. *)
Definition getitem_list (df : DataFrame) (names : list label) : Result DataFrame :=
  match filter (fun c => negb (label_mem c (columns df))) names with
  | [] =>
      Ok (mkFrame
            (flat_map (fun c => filter (label_eqb c) (columns df)) names)
            (map (fun r =>
                    flat_map (fun c => map snd (cells_under c (columns df) r)) names)
                 (rows df)))
  | missing => Raise (KeyError (not_in_index missing))
  end.

(** Python sets as duplicate-free lists; [set(a) - set(b)]. *)
Definition py_set (l : list label) : list label := nodup label_eq_dec l.

Definition set_difference (a b : list label) : list label :=
  filter (fun c => negb (label_mem c b)) a.

(** Iterating over a set visits each element once, in an order that Python
    does not specify. *)
Definition iteration_order (set_iter : list label -> list label) : Prop :=
  forall l, Permutation (set_iter l) l.

(** ** The artifacts *)

Definition ndarray : Type := list (list npfloat).

Record Scaler : Type := mkScaler {
  feature_names_in_ : list string;
  transform : DataFrame -> Result ndarray
}.

Record Model : Type := mkModel {
  model_predict : ndarray -> Result ndarray
}.

(** ** Heap and process state *)

(** Heap objects: a value produced by [request.json], or a frame. *)
Inductive obj : Type :=
| OValue (v : pyval)
| OFrame (df : DataFrame).

Definition loc : Type := nat.
Definition Heap : Type := list obj.

Fixpoint heap_update (h : Heap) (l : loc) (o : obj) : Heap :=
  match h, l with
  | [], _ => []
  | _ :: t, O => o :: t
  | x :: t, S l' => x :: heap_update t l' o
  end.

(** The process: the module globals of [main.py], the heap, and the names of
    the files deserialised so far. *)
Record Process : Type := mkProcess {
  model : Model;
  scaler : Scaler;
  heap : Heap;
  files_read : list string
}.

Definition Py (A : Type) : Type := Process -> Result A * Process.

Definition ret {A} (a : A) : Py A := fun s => (Ok a, s).

Definition raise {A} (e : PyException) : Py A := fun s => (Raise e, s).

Definition bind {A B} (m : Py A) (f : A -> Py B) : Py B :=
  fun s =>
    match m s with
    | (Ok a, s') => f a s'
    | (Raise e, s') => (Raise e, s')
    end.

Notation "x <- m ;; k" := (bind m (fun x => k))
  (at level 61, m at next level, right associativity).
Notation "m ;;; k" := (bind m (fun _ => k))
  (at level 61, right associativity).

Definition lift {A} (r : Result A) : Py A := fun s => (r, s).

(** [try: body  except Exception as e: handler e]. *)
Definition try_except {A} (body : Py A) (handler : PyException -> Py A) : Py A :=
  fun s =>
    match body s with
    | (Ok a, s') => (Ok a, s')
    | (Raise e, s') => handler e s'
    end.

(** [for x in xs: body x]. *)
Fixpoint for_each {A} (xs : list A) (body : A -> Py unit) : Py unit :=
  match xs with
  | [] => ret tt
  | x :: xs' => body x ;;; for_each xs' body
  end.

Definition alloc (o : obj) : Py loc :=
  fun s => (Ok (List.length (heap s)),
            mkProcess (model s) (scaler s) (heap s ++ [o])%list (files_read s)).

Definition load_value (l : loc) : Py pyval :=
  fun s =>
    match nth_error (heap s) l with
    | Some (OValue v) => (Ok v, s)
    | _ => (Raise (TypeError "not a value"), s)
    end.

Definition load_frame (l : loc) : Py DataFrame :=
  fun s =>
    match nth_error (heap s) l with
    | Some (OFrame df) => (Ok df, s)
    | _ => (Raise (TypeError "not a frame"), s)
    end.

Definition store_frame (l : loc) (df : DataFrame) : Py unit :=
  fun s => (Ok tt,
            mkProcess (model s) (scaler s)
                      (heap_update (heap s) l (OFrame df)) (files_read s)).

Definition get_model : Py Model := fun s => (Ok (model s), s).
Definition get_scaler : Py Scaler := fun s => (Ok (scaler s), s).

(** ** utils.py *)

(** The serialised artifacts on disk: what each path deserialises to. *)
Record Disk : Type := mkDisk {
  load_model : string -> Result Model;
  joblib_load : string -> Result Scaler
}.

(** [load_trained_model_and_scaler()], with the log of the files it reads. *)
Definition load_trained_model_and_scaler (disk : Disk)
  : Result (Model * Scaler) * list string :=
  match load_model disk "house_price_model.keras" with
  | Raise e => (Raise e, ["house_price_model.keras"])
  | Ok m =>
      match joblib_load disk "scaler.save" with
      | Raise e => (Raise e, ["house_price_model.keras"; "scaler.save"])
      | Ok sc => (Ok (m, sc), ["house_price_model.keras"; "scaler.save"])
      end
  end.

(** [house_df[feature] = 0] on the frame object at [house_df]. *)
Definition frame_setitem (house_df : loc) (feature : label) (v : pyval) : Py unit :=
  df <- load_frame house_df ;;
  store_frame house_df (setitem_scalar df feature v).

(** Lines 11 to 15 of [preprocess_single_house]: the frame handed to
    [scaler.transform].  [house_data] is the location of the caller's
    object; [set_iter] is the order in which the set is iterated. *)
Definition aligned_frame (set_iter : list label -> list label)
           (house_data : loc) (sc : Scaler) : Py DataFrame :=
  data <- load_value house_data ;;
  house_df <- alloc (OFrame (pd_DataFrame1 data)) ;;
  df <- load_frame house_df ;;
  let names := map LStr (feature_names_in_ sc) in
  let missing_features :=
    set_iter (set_difference (py_set names) (py_set (columns df))) in
  for_each missing_features (fun feature => frame_setitem house_df feature (PInt 0)) ;;;
  df <- load_frame house_df ;;
  selected <- lift (getitem_list df names) ;;
  house_df <- alloc (OFrame selected) ;;
  load_frame house_df.

Definition preprocess_single_house (set_iter : list label -> list label)
           (house_data : loc) (sc : Scaler) : Py ndarray :=
  house_df <- aligned_frame set_iter house_data sc ;;
  lift (transform sc house_df).

(** ** Numbers *)

(** [np.expm1], element by element. *)
Definition np_expm1 (a : ndarray) : ndarray := map (map expm1) a.

(** [a[0]] on an array axis. *)
Definition getitem0 {A} (a : list A) : Result A :=
  match a with
  | x :: _ => Ok x
  | [] => Raise (IndexError "index 0 is out of bounds for axis 0 with size 0")
  end.

(** ** main.py *)

(** A POST to [/predict]: its body decodes to a value or does not. *)
Inductive Request : Type :=
| MalformedBody
| JsonBody (v : pyval).

Inductive JsonValue : Type :=
| JNumber (x : pyfloat)
| JString (s : string).

Inductive Payload : Type :=
| JsonObject (fields : list (string * JsonValue))
| HtmlPage (text : string).

Record Response : Type := mkResponse {
  status : Z;
  payload : Payload
}.

(** [jsonify(d)], and [return r, code]. *)
Definition jsonify (fields : list (string * JsonValue)) : Response :=
  mkResponse 200 (JsonObject fields).

Definition with_status (r : Response) (code : Z) : Response :=
  mkResponse code (payload r).

(** [request.json]: the decoded body as a fresh object, or werkzeug's
    [BadRequest]. *)
Definition request_json (request : Request) : Py loc :=
  match request with
  | JsonBody v => alloc (OValue v)
  | MalformedBody =>
      raise (BadRequest
        "The browser (or proxy) sent a request that this server could not understand.")
  end.

(** Lines 15 to 18: the body of the [try] block. *)
Definition predict_try_block (set_iter : list label -> list label) (data : loc)
  : Py Response :=
  sc <- get_scaler ;;
  house_data_scaled <- preprocess_single_house set_iter data sc ;;
  md <- get_model ;;
  predicted_log_price <- lift (model_predict md house_data_scaled) ;;
  let predicted_price := np_expm1 predicted_log_price in
  row0 <- lift (getitem0 predicted_price) ;;
  x <- lift (getitem0 row0) ;;
  ret (jsonify [("price", JNumber (py_round (py_float x) 2))]).

(** The handler of [/predict]: [request.json] is read before the [try]. *)
Definition predict (set_iter : list label -> list label) (request : Request)
  : Py Response :=
  data <- request_json request ;;
  try_except
    (predict_try_block set_iter data)
    (fun e => ret (with_status (jsonify [("error", JString (py_str e))]) 400)).

(** What Flask answers when the handler raises: an HTTP exception is its own
    response, an HTML page with its description under its code; anything
    else is a 500 page. *)
Definition handle_exception (e : PyException) : Response :=
  match e with
  | BadRequest d => mkResponse 400 (HtmlPage d)
  | _ => mkResponse 500 (HtmlPage "Internal Server Error")
  end.

(** One request through the endpoint. *)
Definition dispatch_request (set_iter : list label -> list label)
           (request : Request) (s : Process) : Response * Process :=
  match predict set_iter request s with
  | (Ok r, s') => (r, s')
  | (Raise e, s') => (handle_exception e, s')
  end.

(** A sequence of requests, one after the other. *)
Fixpoint serve (set_iter : list label -> list label) (requests : list Request)
         (s : Process) : list Response * Process :=
  match requests with
  | [] => ([], s)
  | q :: qs =>
      let (r, s') := dispatch_request set_iter q s in
      let (rs, s'') := serve set_iter qs s' in
      (r :: rs, s'')
  end.

(** Importing [main.py]: line 8 binds the two globals. *)
Definition startup (disk : Disk) : Result Process :=
  match load_trained_model_and_scaler disk with
  | (Ok (m, sc), files) => Ok (mkProcess m sc [] files)
  | (Raise e, _) => Raise e
  end.

(** ** Vocabulary of the statements *)

(** A feature record: a mapping from names to numbers. *)
Definition feature_record (kvs : list (string * pyval)) : Prop :=
  dict_keys_distinct kvs /\ forallb (fun kv => is_numeric (snd kv)) kvs = true.

(** The value of key [k] in a dict. *)
Fixpoint dict_get (k : string) (kvs : list (string * pyval)) : option pyval :=
  match kvs with
  | [] => None
  | (k', v) :: t => if string_dec k k' then Some v else dict_get k t
  end.

(** The cell that alignment gives feature [k]: the input's, or zero. *)
Definition aligned_cell (kvs : list (string * pyval)) (k : string) : pyval :=
  match dict_get k kvs with
  | Some v => v
  | None => PInt 0
  end.

(** The two shapes of an answer of the handler. *)
Definition price_response (r : Response) : Prop :=
  exists x, r = mkResponse 200 (JsonObject [("price", JNumber x)]).

Definition error_response (r : Response) : Prop :=
  exists msg, r = mkResponse 400 (JsonObject [("error", JString msg)]).

Definition has_error_field (r : Response) : Prop :=
  exists fields v, payload r = JsonObject fields /\ In ("error", v) fields.

(** The scaler accepts every one-row frame of numbers under its own feature
    names, and the model answers each such input with at least one value. *)
Definition scaler_accepts_numbers (sc : Scaler) : Prop :=
  forall row,
    List.length row = List.length (feature_names_in_ sc) ->
    forallb is_numeric row = true ->
    exists a, transform sc (mkFrame (map LStr (feature_names_in_ sc)) [row]) = Ok a.

Definition model_answers (md : Model) : Prop :=
  forall a, exists y r rs, model_predict md a = Ok ((y :: r) :: rs).

(** The process after some code ran: same globals, same files read, and a
    heap that only grew. *)
Definition extends (s s' : Process) : Prop :=
  model s' = model s /\ scaler s' = scaler s /\ files_read s' = files_read s /\
  exists fresh, heap s' = heap s ++ fresh.

(** Closed form of lines 11 to 15 on a value [v]: under each feature name
    the cells that [v] has under it, or one zero when it has none. *)
Definition aligned_closed_form (v : pyval) (sc : Scaler) : DataFrame :=
  let df := pd_DataFrame1 v in
  let row := hd [] (rows df) in
  let names := map LStr (feature_names_in_ sc) in
  mkFrame
    (flat_map (fun c => filter (label_eqb c) (columns df)
                        ++ (if label_mem c (columns df) then [] else [c])) names)
    [flat_map (fun c => map snd (cells_under c (columns df) row)
                        ++ (if label_mem c (columns df) then [] else [PInt 0])) names].

(** The frame after the loop of lines 13 and 14, for a given order. *)
Definition zero_filled (set_iter : list label -> list label) (v : pyval)
           (sc : Scaler) : DataFrame :=
  let df := pd_DataFrame1 v in
  fold_left (fun d feature => setitem_scalar d feature (PInt 0))
            (set_iter (set_difference (py_set (map LStr (feature_names_in_ sc)))
                                      (py_set (columns df))))
            df.

(** Closed form of lines 16 to 18 on the scaled features [a], and of the
    answer of the endpoint to a body that decodes to [v]. *)
Definition inference (md : Model) (a : ndarray) : Result Response :=
  rbind (model_predict md a) (fun predicted_log_price =>
  rbind (getitem0 (np_expm1 predicted_log_price)) (fun row0 =>
  rbind (getitem0 row0) (fun x =>
  Ok (jsonify [("price", JNumber (py_round (py_float x) 2))])))).

Definition error_reply (e : PyException) : Response :=
  with_status (jsonify [("error", JString (py_str e))]) 400.

Definition closed_answer (md : Model) (sc : Scaler) (v : pyval) : Response :=
  match rbind (transform sc (aligned_closed_form v sc)) (inference md) with
  | Ok r => r
  | Raise e => error_reply e
  end.

(** What preprocessing makes of a decoded body [v] under feature [k], for
    a body whose keys, if it is an object, are distinct. *)
Definition body_well_formed (v : pyval) : Prop :=
  match v with
  | PDict kvs => dict_keys_distinct kvs
  | _ => True
  end.

Definition body_cell (v : pyval) (k : string) : pyval :=
  match v with
  | PDict kvs => aligned_cell kvs k
  | _ => PInt 0
  end.

End Embedding.

(** ** Floats idealised as real numbers *)

(** [np.expm1] without rounding error. *)
Definition real_expm1 (y : R) : R := (exp y - 1)%R.

(** [float(x)] keeps the value. *)
Definition real_float (x : R) : R := x.

(** The integer nearest to [x], the even one of the two when [x] lies half
    way between them. *)
Definition round_half_even (x : R) : Z :=
  let n := Int_part x in
  let f := frac_part x in
  if Rlt_dec f (1 / 2) then n
  else if Rlt_dec (1 / 2) f then (n + 1)%Z
  else if Z.even n then n else (n + 1)%Z.

(** [round(x, ndigits)] without representation error. *)
Definition real_round (x : R) (ndigits : nat) : R :=
  (IZR (round_half_even (x * 10 ^ ndigits)) / 10 ^ ndigits)%R.

#[export] Instance real_numerics : Numerics :=
  mkNumerics real_expm1 real_float real_round.

Definition positive_price (r : Response) : Prop :=
  exists x : R,
    r = mkResponse 200 (JsonObject [("price", JNumber x)]) /\ (0 < x)%R.

(** ** Sample artifacts and requests *)

Definition cell_to_float (v : pyval) : Result R :=
  match v with
  | PInt n => Ok (IZR n)
  | PFloat x => Ok x
  | _ => Raise (LibraryError "ValueError" "could not convert value to float")
  end.

Fixpoint row_to_floats (row : list pyval) : Result (list R) :=
  match row with
  | [] => Ok []
  | v :: t =>
      rbind (cell_to_float v) (fun x =>
      rbind (row_to_floats t) (fun xs => Ok (x :: xs)))
  end.

Fixpoint rows_to_floats (rs : list (list pyval)) : Result ndarray :=
  match rs with
  | [] => Ok []
  | r :: t =>
      rbind (row_to_floats r) (fun x =>
      rbind (rows_to_floats t) (fun xs => Ok (x :: xs)))
  end.

(** A scaler fitted to mean 0 and scale 1 on the given features. *)
Definition unit_scaler (names : list string) : Scaler :=
  mkScaler names (fun df => rows_to_floats (rows df)).

(** A model that answers [y] whatever the features, and one whose output
    has two rows of two values. *)
Definition constant_model (y : R) : Model :=
  mkModel (fun _ => Ok [[y]]).

Definition wide_model : Model :=
  mkModel (fun _ => Ok [[0; 5]; [7; 9]]%R).

(** A model whose output is one row without a value. *)
Definition hollow_model : Model :=
  mkModel (fun _ => Ok [[]]).

Definition sample_names : list string := ["area"; "rooms"].

Definition sample_process (md : Model) : Process :=
  mkProcess md (unit_scaler sample_names) []
            ["house_price_model.keras"; "scaler.save"].

(** A record that lacks the feature [rooms] and has a field of its own. *)
Definition sample_record : list (string * pyval) :=
  [("garden", PInt 1); ("area", PInt 120)].

(** A record whose [area] is not a number. *)
Definition sample_bad_record : list (string * pyval) :=
  [("area", PStr "large")].

Definition sample_disk : Disk :=
  mkDisk (fun _ => Ok (constant_model 12)) (fun _ => Ok (unit_scaler sample_names)).

(** Two iteration orders. *)
Definition identity_order (l : list label) : list label := l.

Definition reverse_order (l : list label) : list label := rev l.

(** A process whose heap holds the value [v] at location 0. *)
Definition sample_holding (v : pyval) : Process :=
  mkProcess (constant_model 12) (unit_scaler sample_names) [OValue v]
            ["house_price_model.keras"; "scaler.save"].

(** * Properties *)

(** ** Labels and lists *)

Lemma label_eqb_eq (a b : label) : label_eqb a b = true <-> a = b.
Proof.
  unfold label_eqb. destruct (label_eq_dec a b); split; congruence.
Qed.

Lemma label_eqb_refl (a : label) : label_eqb a a = true.
Proof. now apply label_eqb_eq. Qed.

Lemma label_eqb_neq (a b : label) : a <> b -> label_eqb a b = false.
Proof.
  unfold label_eqb. destruct (label_eq_dec a b); congruence.
Qed.

Lemma label_mem_In (a : label) (l : list label) : label_mem a l = true <-> In a l.
Proof.
  unfold label_mem. rewrite existsb_exists. split.
  - intros [x [Hx Heq]]. apply label_eqb_eq in Heq. now subst.
  - intro H. exists a. split; [assumption | apply label_eqb_refl].
Qed.

Lemma label_mem_not_In (a : label) (l : list label) :
  label_mem a l = false <-> ~ In a l.
Proof.
  rewrite <- label_mem_In. destruct (label_mem a l); split; congruence.
Qed.

Lemma filter_eqb_absent (c : label) (l : list label) :
  ~ In c l -> filter (label_eqb c) l = [].
Proof.
  induction l as [|x l IH]; simpl; intro H; [reflexivity|].
  rewrite label_eqb_neq by (intro; subst; apply H; now left).
  apply IH. intro; apply H; now right.
Qed.

Lemma filter_eqb_nodup (c : label) (l : list label) :
  NoDup l -> filter (label_eqb c) l = if label_mem c l then [c] else [].
Proof.
  induction 1 as [|x l Hx Hnd IH]; simpl; [reflexivity|].
  destruct (label_eq_dec c x) as [->|Hne].
  - rewrite label_eqb_refl. simpl. now rewrite filter_eqb_absent.
  - rewrite (label_eqb_neq Hne). simpl. exact IH.
Qed.

Lemma flat_map_ext_In {A B} (f g : A -> list B) (l : list A) :
  (forall a, In a l -> f a = g a) -> flat_map f l = flat_map g l.
Proof.
  induction l as [|x l IH]; simpl; intro H; [reflexivity|].
  rewrite (H x) by now left. f_equal. apply IH. intros; apply H; now right.
Qed.

Lemma flat_map_singleton {A B} (f : A -> B) (l : list A) :
  flat_map (fun a => [f a]) l = map f l.
Proof. induction l; simpl; congruence. Qed.

Lemma flat_map_over_map {A B C} (f : B -> list C) (g : A -> B) (l : list A) :
  flat_map f (map g l) = flat_map (fun a => f (g a)) l.
Proof. induction l; simpl; congruence. Qed.

Lemma py_set_In (c : label) (l : list label) : In c (py_set l) <-> In c l.
Proof. unfold py_set. apply nodup_In. Qed.

Lemma set_difference_In (c : label) (a b : list label) :
  In c (set_difference a b) <-> In c a /\ ~ In c b.
Proof.
  unfold set_difference. rewrite filter_In, negb_true_iff, label_mem_not_In.
  reflexivity.
Qed.

Lemma set_difference_NoDup (a b : list label) :
  NoDup a -> NoDup (set_difference a b).
Proof. apply NoDup_filter. Qed.

(** ** Frames *)

Lemma cells_under_app {N : Numerics} (c : label) (cols cols' : list label) (row row' : list pyval) :
  List.length cols = List.length row ->
  cells_under c (cols ++ cols') (row ++ row')
  = cells_under c cols row ++ cells_under c cols' row'.
Proof.
  unfold cells_under. revert row.
  induction cols as [|x cols IH]; intros [|v row] Hlen; simpl in *;
    try discriminate; [reflexivity|].
  rewrite IH by congruence.
  now destruct (label_eqb c x).
Qed.

Lemma cells_under_repeat {N : Numerics} (c : label) (z : pyval) (ms : list label) :
  map snd (cells_under c ms (repeat z (List.length ms)))
  = map (fun _ => z) (filter (label_eqb c) ms).
Proof.
  unfold cells_under.
  induction ms as [|x ms IH]; simpl; [reflexivity|].
  destruct (label_eqb c x); simpl; now rewrite IH.
Qed.

Lemma setitem_scalar_rows {N : Numerics} (df : DataFrame) (c : label) (v : pyval) :
  List.length (rows (setitem_scalar df c v)) = List.length (rows df).
Proof.
  unfold setitem_scalar. destruct (label_mem c (columns df)); simpl;
    now rewrite length_map.
Qed.

Lemma fold_setitem_rows {N : Numerics} (ms : list label) (v : pyval) (df : DataFrame) :
  List.length (rows (fold_left (fun d c => setitem_scalar d c v) ms df))
  = List.length (rows df).
Proof.
  revert df. induction ms as [|c ms IH]; intro df; simpl; [reflexivity|].
  now rewrite IH, setitem_scalar_rows.
Qed.

(** Labels that are all new and distinct are appended in the order of the
    iteration, each with the scalar in every row. *)
Lemma fold_setitem_fresh {N : Numerics} (ms : list label) (v : pyval) (df : DataFrame) :
  NoDup ms ->
  (forall c, In c ms -> ~ In c (columns df)) ->
  fold_left (fun d c => setitem_scalar d c v) ms df
  = mkFrame (columns df ++ ms)
            (map (fun r => r ++ repeat v (List.length ms)) (rows df)).
Proof.
  revert df. induction ms as [|c ms IH]; intros df Hnd Hfresh; simpl.
  - destruct df as [cols rs]. simpl. rewrite app_nil_r. f_equal.
    rewrite <- (map_id rs) at 1. apply map_ext. intro r. now rewrite app_nil_r.
  - inversion Hnd as [|? ? Hc Hnd']; subst.
    assert (Hmem : label_mem c (columns df) = false).
    { apply label_mem_not_In. apply Hfresh. now left. }
    unfold setitem_scalar at 2. rewrite Hmem.
    rewrite IH; simpl.
    + rewrite <- app_assoc. simpl. f_equal.
      rewrite map_map. apply map_ext. intro r. now rewrite <- app_assoc.
    + assumption.
    + intros c' Hc' Hin. apply in_app_or in Hin. destruct Hin as [Hin|[->|[]]].
      * apply (Hfresh c'); [now right | assumption].
      * contradiction.
Qed.

Lemma pd_DataFrame1_shape {N : Numerics} (v : pyval) :
  exists row, rows (pd_DataFrame1 v) = [row]
              /\ List.length (columns (pd_DataFrame1 v)) = List.length row.
Proof.
  destruct v; simpl; eexists; split; try reflexivity.
  - now rewrite length_map, length_seq.
  - now rewrite !length_map.
Qed.

Lemma filter_none {A} (f : A -> bool) (l : list A) :
  (forall x, In x l -> f x = false) -> filter f l = [].
Proof.
  induction l as [|x l IH]; simpl; intro H; [reflexivity|].
  rewrite (H x) by now left. apply IH. intros; apply H; now right.
Qed.

(** The labels that the loop adds, whatever the order: distinct, none of
    them a column yet, and exactly the names that are no column. *)
Lemma missing_features_spec (set_iter : list label -> list label)
      (names cols : list label) :
  iteration_order set_iter ->
  let ms := set_iter (set_difference (py_set names) (py_set cols)) in
  NoDup ms /\ (forall c, In c ms <-> In c names /\ ~ In c cols).
Proof.
  intros Hord ms. pose proof (Hord (set_difference (py_set names) (py_set cols))) as Hp.
  fold ms in Hp. split.
  - apply (Permutation_NoDup (Permutation_sym Hp)).
    apply set_difference_NoDup. apply NoDup_nodup.
  - intro c. split.
    + intro H. apply (Permutation_in _ Hp) in H.
      apply set_difference_In in H. now rewrite !py_set_In in H.
    + intro H. apply (Permutation_in _ (Permutation_sym Hp)).
      apply set_difference_In. now rewrite !py_set_In.
Qed.

Lemma filter_missing (ms cols : list label) (c : label) :
  NoDup ms -> (In c ms <-> ~ In c cols) ->
  filter (label_eqb c) ms = if label_mem c cols then [] else [c].
Proof.
  intros Hnd Hiff. rewrite (filter_eqb_nodup c Hnd).
  destruct (label_mem c cols) eqn:Hc.
  - apply label_mem_In in Hc.
    destruct (label_mem c ms) eqn:Hm; [|reflexivity].
    apply label_mem_In in Hm. apply Hiff in Hm. contradiction.
  - apply label_mem_not_In in Hc. apply Hiff in Hc.
    apply label_mem_In in Hc. now rewrite Hc.
Qed.

(** After the loop, selecting the feature names never fails and gives the
    closed form, whatever the order of the loop. *)
Lemma getitem_zero_filled {N : Numerics} (set_iter : list label -> list label) (v : pyval)
      (sc : Scaler) :
  iteration_order set_iter ->
  getitem_list (zero_filled set_iter v sc) (map LStr (feature_names_in_ sc))
  = Ok (aligned_closed_form v sc).
Proof.
  intro Hord.
  destruct (pd_DataFrame1_shape v) as [row [Hrows Hlen]].
  unfold zero_filled, aligned_closed_form.
  set (df := pd_DataFrame1 v) in *.
  set (names := map LStr (feature_names_in_ sc)).
  destruct (missing_features_spec names (columns df) Hord) as [Hnd Hms].
  set (ms := set_iter (set_difference (py_set names) (py_set (columns df)))) in *.
  rewrite fold_setitem_fresh; [| assumption | intros c Hc; now apply Hms in Hc].
  rewrite Hrows. simpl.
  unfold getitem_list. simpl.
  rewrite filter_none.
  2:{ intros c Hc. apply negb_false_iff. apply label_mem_In. apply in_or_app.
      destruct (in_dec label_eq_dec c (columns df)) as [Hin|Hout];
        [now left | right]. apply Hms. now split. }
  f_equal. f_equal.
  - apply flat_map_ext_In. intros c Hc. rewrite filter_app. f_equal.
    apply filter_missing; [assumption|]. rewrite Hms. tauto.
  - f_equal. apply flat_map_ext_In. intros c Hc.
    rewrite cells_under_app by assumption.
    rewrite map_app, cells_under_repeat. f_equal.
    rewrite (@filter_missing ms (columns df) c); [| assumption | rewrite Hms; tauto].
    now destruct (label_mem c (columns df)).
Qed.

(** On a dict, the closed form is the row of [aligned_cell]s. *)
Lemma dict_cells {N : Numerics} (k : string) (kvs : list (string * pyval)) :
  dict_keys_distinct kvs ->
  map snd (cells_under (LStr k) (map (fun kv => LStr (fst kv)) kvs) (map snd kvs))
  = match dict_get k kvs with Some v => [v] | None => [] end
  /\ label_mem (LStr k) (map (fun kv => LStr (fst kv)) kvs)
     = match dict_get k kvs with Some _ => true | None => false end.
Proof.
  unfold dict_keys_distinct, cells_under.
  induction kvs as [|[k' v] kvs IH]; simpl; intro Hnd; [now split|].
  inversion Hnd as [|? ? Hk' Hnd']; subst.
  destruct (IH Hnd') as [IHc IHm].
  destruct (string_dec k k') as [->|Hne].
  - rewrite label_eqb_refl. simpl. split; [|reflexivity].
    f_equal. rewrite IHc.
    destruct (dict_get k' kvs) eqn:Hg; [|reflexivity].
    exfalso. try rewrite Hg in IHm. apply label_mem_In in IHm.
    apply in_map_iff in IHm. destruct IHm as [[k0 v0] [Heq Hin]].
    simpl in Heq. injection Heq as ->. apply Hk'.
    apply in_map_iff. now exists (k', v0).
  - rewrite label_eqb_neq by congruence. simpl. now split.
Qed.

Lemma dict_columns_NoDup {N : Numerics} (kvs : list (string * pyval)) :
  dict_keys_distinct kvs -> NoDup (map (fun kv => LStr (fst kv)) kvs).
Proof.
  unfold dict_keys_distinct.
  induction kvs as [|[k v] kvs IH]; simpl; intro H; [constructor|].
  inversion H as [|? ? Hk Hnd]; subst. constructor; [|now apply IH].
  intro Hin. apply in_map_iff in Hin. destruct Hin as [[k0 v0] [Heq Hin]].
  simpl in Heq. injection Heq as ->. apply Hk.
  apply in_map_iff. now exists (k, v0).
Qed.

Lemma aligned_closed_form_dict {N : Numerics} (kvs : list (string * pyval)) (sc : Scaler) :
  dict_keys_distinct kvs ->
  aligned_closed_form (PDict kvs) sc
  = mkFrame (map LStr (feature_names_in_ sc))
            [map (aligned_cell kvs) (feature_names_in_ sc)].
Proof.
  intro Hnd. unfold aligned_closed_form. simpl.
  rewrite !flat_map_over_map.
  f_equal.
  - rewrite <- (flat_map_singleton LStr (feature_names_in_ sc)).
    apply flat_map_ext. intro k.
    rewrite (filter_eqb_nodup _ (dict_columns_NoDup Hnd)).
    now destruct (label_mem _ _).
  - f_equal. rewrite <- (flat_map_singleton (aligned_cell kvs) (feature_names_in_ sc)).
    apply flat_map_ext. intro k.
    destruct (dict_cells k Hnd) as [Hc Hm]. rewrite Hc, Hm.
    unfold aligned_cell. now destruct (dict_get k kvs).
Qed.

Lemma cells_under_absent {N : Numerics} (c : label) (cols : list label) (row : list pyval) :
  ~ In c cols -> cells_under c cols row = [].
Proof.
  unfold cells_under. revert row.
  induction cols as [|x cols IH]; intros [|v row] H; simpl; try reflexivity.
  rewrite label_eqb_neq by (intro; subst; apply H; now left).
  apply IH. intro; apply H; now right.
Qed.

(** A body that is no object has positions for columns, never a name. *)
Lemma positional_columns {N : Numerics} (v : pyval) (k : string) :
  (forall kvs, v <> PDict kvs) -> ~ In (LStr k) (columns (pd_DataFrame1 v)).
Proof.
  intro Hv. destruct v; simpl;
    try (intros [E|[]]; discriminate).
  - intro H. apply in_map_iff in H. destruct H as [i [E _]]. discriminate.
  - now destruct (Hv kvs).
Qed.

Lemma aligned_closed_form_no_object {N : Numerics} (v : pyval) (sc : Scaler) :
  (forall kvs, v <> PDict kvs) ->
  aligned_closed_form v sc
  = mkFrame (map LStr (feature_names_in_ sc))
            [map (fun _ => PInt 0) (feature_names_in_ sc)].
Proof.
  intro Hv. unfold aligned_closed_form. rewrite !flat_map_over_map.
  f_equal.
  - rewrite <- (flat_map_singleton LStr (feature_names_in_ sc)).
    apply flat_map_ext. intro k.
    pose proof (@positional_columns _ v k Hv) as Hk.
    rewrite (@filter_eqb_absent (LStr k) _ Hk).
    apply label_mem_not_In in Hk. now rewrite Hk.
  - f_equal.
    rewrite <- (flat_map_singleton (fun _ => PInt 0) (feature_names_in_ sc)).
    apply flat_map_ext. intro k.
    pose proof (@positional_columns _ v k Hv) as Hk.
    rewrite (@cells_under_absent _ (LStr k) _ _ Hk).
    apply label_mem_not_In in Hk. now rewrite Hk.
Qed.

Lemma aligned_closed_form_body {N : Numerics} (v : pyval) (sc : Scaler) :
  body_well_formed v ->
  aligned_closed_form v sc
  = mkFrame (map LStr (feature_names_in_ sc))
            [map (body_cell v) (feature_names_in_ sc)].
Proof.
  intro Hv.
  destruct v; try (apply aligned_closed_form_no_object; intros kvs0 H; discriminate H).
  now apply aligned_closed_form_dict.
Qed.

(** ** Running the code on the heap *)

Lemma nth_error_fresh {N : Numerics} (h : Heap) (o : obj) :
  nth_error (h ++ [o]) (List.length h) = Some o.
Proof.
  rewrite nth_error_app2 by lia. now rewrite Nat.sub_diag.
Qed.

Lemma heap_update_fresh {N : Numerics} (h : Heap) (o o' : obj) :
  heap_update (h ++ [o]) (List.length h) o' = h ++ [o'].
Proof. induction h; simpl; congruence. Qed.

Lemma nth_error_old {N : Numerics} (h fresh : Heap) (l : loc) (o : obj) :
  nth_error h l = Some o -> nth_error (h ++ fresh) l = Some o.
Proof.
  intro H. rewrite nth_error_app1; [assumption|].
  apply nth_error_Some. congruence.
Qed.

(** The loop of lines 13 and 14 writes to the frame object only. *)
Lemma for_each_setitem {N : Numerics} (ms : list label) (v : pyval) (h : Heap) :
  forall (df : DataFrame) (s : Process),
    heap s = h ++ [OFrame df] ->
    for_each ms (fun feature => frame_setitem (List.length h) feature v) s
    = (Ok tt,
       mkProcess (model s) (scaler s)
                 (h ++ [OFrame (fold_left (fun d c => setitem_scalar d c v) ms df)])
                 (files_read s)).
Proof.
  induction ms as [|c ms IH]; intros df s Hs; simpl.
  - unfold ret. destruct s; simpl in *. now subst.
  - unfold bind at 1. unfold frame_setitem at 1, bind at 1, load_frame at 1.
    rewrite Hs, nth_error_fresh. unfold store_frame.
    rewrite Hs, heap_update_fresh.
    now rewrite (IH (setitem_scalar df c v)).
Qed.

Lemma aligned_frame_run {N : Numerics} (set_iter : list label -> list label) (s : Process)
      (house_data : loc) (sc : Scaler) (v : pyval) :
  nth_error (heap s) house_data = Some (OValue v) ->
  aligned_frame set_iter house_data sc s
  = match getitem_list (zero_filled set_iter v sc) (map LStr (feature_names_in_ sc)) with
    | Ok selected =>
        (Ok selected,
         mkProcess (model s) (scaler s)
                   (heap s ++ [OFrame (zero_filled set_iter v sc); OFrame selected])
                   (files_read s))
    | Raise e =>
        (Raise e,
         mkProcess (model s) (scaler s)
                   (heap s ++ [OFrame (zero_filled set_iter v sc)])
                   (files_read s))
    end.
Proof.
  intro Hv. unfold aligned_frame.
  unfold bind at 1, load_value at 1. rewrite Hv.
  unfold bind at 1, alloc at 1.
  unfold bind at 1, load_frame at 1. simpl heap. rewrite nth_error_fresh.
  unfold bind at 1.
  rewrite (@for_each_setitem _ _ (PInt 0) (heap s) (pd_DataFrame1 v)) by reflexivity.
  simpl model. simpl scaler. simpl files_read.
  unfold bind at 1, load_frame at 1. simpl heap. rewrite nth_error_fresh.
  fold (zero_filled set_iter v sc).
  unfold bind at 1, lift at 1.
  destruct (getitem_list (zero_filled set_iter v sc) (map LStr (feature_names_in_ sc)))
    as [selected|e]; [|reflexivity].
  unfold bind, alloc, load_frame. simpl.
  rewrite <- app_assoc. simpl.
  replace (S (List.length (heap s)))
    with (List.length (heap s ++ [OFrame (zero_filled set_iter v sc)]))
    by (rewrite length_app; simpl; lia).
  change (heap s ++ [OFrame (zero_filled set_iter v sc); OFrame selected])
    with (heap s ++ [OFrame (zero_filled set_iter v sc)] ++ [OFrame selected]).
  rewrite app_assoc, nth_error_fresh. reflexivity.
Qed.

Lemma aligned_frame_no_value {N : Numerics} (set_iter : list label -> list label) (s : Process)
      (house_data : loc) (sc : Scaler) :
  (forall v, nth_error (heap s) house_data <> Some (OValue v)) ->
  aligned_frame set_iter house_data sc s = (Raise (TypeError "not a value"), s).
Proof.
  intro H. unfold aligned_frame, bind at 1, load_value.
  destruct (nth_error (heap s) house_data) as [[v|df]|]; try reflexivity.
  now destruct (H v).
Qed.

(** ** What running the code leaves behind *)

Lemma extends_refl {N : Numerics} (s : Process) : extends s s.
Proof.
  repeat split. exists []. now rewrite app_nil_r.
Qed.

Lemma extends_trans {N : Numerics} (s1 s2 s3 : Process) :
  extends s1 s2 -> extends s2 s3 -> extends s1 s3.
Proof.
  intros (Hm & Hs & Hf & f1 & Hh) (Hm' & Hs' & Hf' & f2 & Hh').
  repeat split; try congruence.
  exists (f1 ++ f2). now rewrite Hh', Hh, app_assoc.
Qed.

Lemma extends_grow {N : Numerics} (s : Process) (fresh : Heap) :
  extends s (mkProcess (model s) (scaler s) (heap s ++ fresh) (files_read s)).
Proof. repeat split. now exists fresh. Qed.

Lemma aligned_frame_extends {N : Numerics} (set_iter : list label -> list label) (s : Process)
      (house_data : loc) (sc : Scaler) :
  extends s (snd (aligned_frame set_iter house_data sc s)).
Proof.
  destruct (nth_error (heap s) house_data) as [[v|df]|] eqn:Hn.
  - rewrite (@aligned_frame_run _ set_iter s house_data sc v Hn).
    destruct (getitem_list _ _); apply extends_grow.
  - rewrite aligned_frame_no_value by congruence. apply extends_refl.
  - rewrite aligned_frame_no_value by congruence. apply extends_refl.
Qed.

Lemma preprocess_state {N : Numerics} (set_iter : list label -> list label) (s : Process)
      (house_data : loc) (sc : Scaler) :
  snd (preprocess_single_house set_iter house_data sc s)
  = snd (aligned_frame set_iter house_data sc s).
Proof.
  unfold preprocess_single_house, bind, lift.
  now destruct (aligned_frame set_iter house_data sc s) as [[df|e] s'].
Qed.

Lemma preprocess_value {N : Numerics} (set_iter : list label -> list label) (s : Process)
      (house_data : loc) (sc : Scaler) :
  fst (preprocess_single_house set_iter house_data sc s)
  = rbind (fst (aligned_frame set_iter house_data sc s)) (transform sc).
Proof.
  unfold preprocess_single_house, bind, lift.
  now destruct (aligned_frame set_iter house_data sc s) as [[df|e] s'].
Qed.

Lemma preprocess_extends {N : Numerics} (set_iter : list label -> list label) (s : Process)
      (house_data : loc) (sc : Scaler) :
  extends s (snd (preprocess_single_house set_iter house_data sc s)).
Proof. rewrite preprocess_state. apply aligned_frame_extends. Qed.

(** The [try] block is preprocessing followed by [inference]. *)
Lemma predict_try_block_run {N : Numerics} (set_iter : list label -> list label) (data : loc)
      (s : Process) :
  predict_try_block set_iter data s
  = (rbind (fst (preprocess_single_house set_iter data (scaler s) s))
           (inference (model s)),
     snd (preprocess_single_house set_iter data (scaler s) s)).
Proof.
  pose proof (preprocess_extends set_iter s data (scaler s)) as (Hm & _).
  unfold predict_try_block, bind at 1, get_scaler.
  unfold bind at 1.
  destruct (preprocess_single_house set_iter data (scaler s) s) as [[a|e] s1];
    simpl in *; [|reflexivity].
  unfold bind at 1, get_model. rewrite Hm.
  unfold inference, bind, lift, ret.
  destruct (model_predict (model s) a) as [out|e]; simpl; [|reflexivity].
  destruct (getitem0 (np_expm1 out)) as [row0|e]; simpl; [|reflexivity].
  now destruct (getitem0 row0).
Qed.

Lemma predict_try_block_extends {N : Numerics} (set_iter : list label -> list label) (data : loc)
      (s : Process) :
  extends s (snd (predict_try_block set_iter data s)).
Proof. rewrite predict_try_block_run. apply preprocess_extends. Qed.

Lemma predict_extends {N : Numerics} (set_iter : list label -> list label) (request : Request)
      (s : Process) :
  extends s (snd (predict set_iter request s)).
Proof.
  destruct request as [|v]; simpl.
  - apply extends_refl.
  - unfold predict, bind, request_json, alloc, try_except.
    set (s0 := mkProcess (model s) (scaler s) (heap s ++ [OValue v]) (files_read s)).
    pose proof (predict_try_block_extends set_iter (List.length (heap s)) s0) as H.
    assert (H0 : extends s s0) by apply extends_grow.
    destruct (predict_try_block set_iter (List.length (heap s)) s0) as [[r|e] s1];
      simpl in *; exact (extends_trans H0 H).
Qed.

Lemma dispatch_extends {N : Numerics} (set_iter : list label -> list label) (request : Request)
      (s : Process) :
  extends s (snd (dispatch_request set_iter request s)).
Proof.
  pose proof (predict_extends set_iter request s) as H.
  unfold dispatch_request.
  now destruct (predict set_iter request s) as [[r|e] s'].
Qed.

Lemma serve_extends {N : Numerics} (set_iter : list label -> list label) (requests : list Request) :
  forall s, extends s (snd (serve set_iter requests s)).
Proof.
  induction requests as [|q qs IH]; intro s; simpl.
  - apply extends_refl.
  - pose proof (dispatch_extends set_iter q s) as H.
    destruct (dispatch_request set_iter q s) as [r s'].
    pose proof (IH s') as H'.
    destruct (serve set_iter qs s') as [rs s'']. simpl in *.
    exact (extends_trans H H').
Qed.

(** ** The answer of the endpoint *)

(** With a body that decodes, the handler always returns: what the [try]
    block returns, or the error reply for what it raises. *)
Lemma predict_json {N : Numerics} (set_iter : list label -> list label) (v : pyval) (s : Process) :
  predict set_iter (JsonBody v) s
  = let s0 := mkProcess (model s) (scaler s) (heap s ++ [OValue v]) (files_read s) in
    match predict_try_block set_iter (List.length (heap s)) s0 with
    | (Ok r, s1) => (Ok r, s1)
    | (Raise e, s1) => (Ok (error_reply e), s1)
    end.
Proof. reflexivity. Qed.

Lemma request_json_inv {N : Numerics} (request : Request) (s s0 : Process) (data : loc) :
  request_json request s = (Ok data, s0) ->
  exists v, request = JsonBody v
            /\ data = List.length (heap s)
            /\ s0 = mkProcess (model s) (scaler s) (heap s ++ [OValue v]) (files_read s).
Proof.
  destruct request as [|v]; simpl; unfold raise, alloc; intro H.
  - discriminate.
  - injection H as <- <-. now exists v.
Qed.

Lemma aligned_frame_json {N : Numerics} (set_iter : list label -> list label) (v : pyval)
      (s : Process) (sc : Scaler) :
  iteration_order set_iter ->
  fst (aligned_frame set_iter (List.length (heap s)) sc
         (mkProcess (model s) (scaler s) (heap s ++ [OValue v]) (files_read s)))
  = Ok (aligned_closed_form v sc).
Proof.
  intro Hord.
  rewrite (@aligned_frame_run _ set_iter _ _ sc v) by (simpl; apply nth_error_fresh).
  now rewrite getitem_zero_filled.
Qed.

(** The response to a body that decodes to [v] is [closed_answer]: it
    depends on the model, the scaler and [v] only. *)
Lemma dispatch_json {N : Numerics} (set_iter : list label -> list label) (v : pyval) (s : Process) :
  iteration_order set_iter ->
  fst (dispatch_request set_iter (JsonBody v) s)
  = closed_answer (model s) (scaler s) v.
Proof.
  intro Hord. unfold dispatch_request. rewrite predict_json. cbv zeta.
  rewrite predict_try_block_run, preprocess_value. simpl model. simpl scaler.
  rewrite (aligned_frame_json v s (scaler s) Hord).
  unfold closed_answer. simpl rbind at 1.
  now destruct (rbind (transform (scaler s) (aligned_closed_form v (scaler s)))
                      (inference (model s))).
Qed.

Lemma aligned_cell_numeric {N : Numerics} (kvs : list (string * pyval)) (k : string) :
  forallb (fun kv => is_numeric (snd kv)) kvs = true ->
  is_numeric (aligned_cell kvs k) = true.
Proof.
  unfold aligned_cell.
  induction kvs as [|[k' v] kvs IH]; simpl; intro H; [reflexivity|].
  apply andb_prop in H. destruct H as [Hv Hrest].
  destruct (string_dec k k'); [assumption | now apply IH].
Qed.

(** A feature record, complete or not, is priced when the artifacts accept
    numbers. *)
Lemma record_is_priced {N : Numerics} (set_iter : list label -> list label)
      (kvs : list (string * pyval)) (s : Process) :
  iteration_order set_iter ->
  feature_record kvs ->
  scaler_accepts_numbers (scaler s) ->
  model_answers (model s) ->
  exists a y rest others,
    transform (scaler s)
      (mkFrame (map LStr (feature_names_in_ (scaler s)))
               [map (aligned_cell kvs) (feature_names_in_ (scaler s))]) = Ok a
    /\ model_predict (model s) a = Ok ((y :: rest) :: others)
    /\ fst (dispatch_request set_iter (JsonBody (PDict kvs)) s)
       = mkResponse 200 (JsonObject [("price", JNumber (py_round (py_float (expm1 y)) 2))]).
Proof.
  intros Hord [Hnd Hnum] Hsc Hmd.
  destruct (Hsc (map (aligned_cell kvs) (feature_names_in_ (scaler s)))) as [a Ha].
  { now rewrite length_map. }
  { rewrite forallb_forall. intros c Hc. apply in_map_iff in Hc.
    destruct Hc as [k [<- _]]. now apply aligned_cell_numeric. }
  destruct (Hmd a) as (y & rest & others & Hy).
  exists a, y, rest, others. repeat split; try assumption.
  rewrite dispatch_json by assumption.
  unfold closed_answer. rewrite aligned_closed_form_dict by assumption.
  rewrite Ha. simpl. unfold inference. rewrite Hy. reflexivity.
Qed.

(** ** Rounding *)

Lemma Rabs_le_bounds (a b : R) : (Rabs a <= b -> - b <= a <= b)%R.
Proof.
  unfold Rabs. destruct (Rcase_abs a); lra.
Qed.

Lemma int_frac_split (x : R) :
  (x = IZR (Int_part x) + frac_part x /\ 0 <= frac_part x < 1)%R.
Proof.
  destruct (base_fp x) as [H0 H1]. unfold frac_part in *. split; lra.
Qed.

Lemma round_half_even_close (x : R) :
  (Rabs (IZR (round_half_even x) - x) <= 1 / 2)%R.
Proof.
  unfold round_half_even.
  destruct (int_frac_split x) as [Hx [H0 H1]].
  set (n := Int_part x) in *. set (f := frac_part x) in *.
  apply Rabs_le.
  destruct (Rlt_dec f (1 / 2)); [lra|].
  destruct (Rlt_dec (1 / 2) f); [rewrite plus_IZR; lra|].
  destruct (Z.even n); [lra | rewrite plus_IZR; lra].
Qed.

Lemma round_half_even_pos (x : R) :
  (0 < round_half_even x)%Z <-> (1 / 2 < x)%R.
Proof.
  unfold round_half_even.
  destruct (int_frac_split x) as [Hx [H0 H1]].
  set (n := Int_part x) in *. set (f := frac_part x) in *.
  assert (Hpos : forall m : Z, (0 < m)%Z -> (1 <= IZR m)%R).
  { intros m Hm. apply IZR_le. lia. }
  assert (Hnonneg : forall m : Z, (0 <= m)%Z -> (0 <= IZR m)%R).
  { intros m Hm. apply IZR_le. lia. }
  assert (Hback : forall m : Z, (0 < IZR m)%R -> (0 < m)%Z).
  { intros m Hm. apply lt_IZR. exact Hm. }
  assert (Hback1 : forall m : Z, (-1 < IZR m)%R -> (0 <= m)%Z).
  { intros m Hm. assert (-1 < m)%Z by (apply lt_IZR; exact Hm). lia. }
  destruct (Rlt_dec f (1 / 2)) as [Hlt|Hge].
  - split; intro H.
    + apply Hpos in H. lra.
    + apply Hback. lra.
  - destruct (Rlt_dec (1 / 2) f) as [Hgt|Hle].
    + split; intro H.
      * assert (0 <= n)%Z as Hn by lia. apply Hnonneg in Hn. lra.
      * assert (0 <= n)%Z by (apply Hback1; lra). lia.
    + assert (Hf : f = (1 / 2)%R) by lra.
      destruct (Z.even n) eqn:He.
      * split; intro H.
        -- apply Hpos in H. lra.
        -- apply Hback. lra.
      * split; intro H.
        -- assert (n <> 0)%Z as Hn0.
           { intro E. rewrite E in He. discriminate. }
           assert (0 < n)%Z as Hn by lia. apply Hpos in Hn. lra.
        -- assert (0 <= n)%Z by (apply Hback1; lra). lia.
Qed.

Lemma py_round_hundredths (x : R) :
  real_round x 2 = (IZR (round_half_even (x * 100)) / 100)%R.
Proof.
  unfold real_round. replace (10 ^ 2)%R with 100%R by (simpl; lra). reflexivity.
Qed.

Lemma py_round_close (x : R) : (Rabs (real_round x 2 - x) <= 1 / 200)%R.
Proof.
  rewrite py_round_hundredths.
  pose proof (round_half_even_close (x * 100)) as H.
  apply Rabs_le_bounds in H. apply Rabs_le. lra.
Qed.

Lemma py_round_pos (x : R) : (0 < real_round x 2)%R <-> (1 / 200 < x)%R.
Proof.
  rewrite py_round_hundredths.
  pose proof (round_half_even_pos (x * 100)) as H.
  split; intro Hx.
  - assert (0 < IZR (round_half_even (x * 100)))%R as H0 by lra.
    apply lt_IZR in H0. apply H in H0. lra.
  - assert (0 < round_half_even (x * 100))%Z as H0 by (apply H; lra).
    apply IZR_lt in H0. lra.
Qed.

Lemma round_half_even_mono (x1 x2 : R) :
  (x1 <= x2)%R -> (round_half_even x1 <= round_half_even x2)%Z.
Proof.
  intro Hx.
  destruct (Z_le_gt_dec (round_half_even x1) (round_half_even x2)) as [|Hgt];
    [assumption | exfalso].
  pose proof (@Rabs_le_bounds _ _ (round_half_even_close x1)) as H1.
  pose proof (@Rabs_le_bounds _ _ (round_half_even_close x2)) as H2.
  assert (Hstep : (IZR (round_half_even x2) + 1 <= IZR (round_half_even x1))%R).
  { rewrite <- plus_IZR. apply IZR_le. lia. }
  assert (Heq : x1 = x2) by lra.
  rewrite Heq in Hgt. lia.
Qed.

Lemma py_round_mono (x1 x2 : R) :
  (x1 <= x2)%R -> (real_round x1 2 <= real_round x2 2)%R.
Proof.
  intro Hx. rewrite !py_round_hundredths.
  assert (H : (round_half_even (x1 * 100) <= round_half_even (x2 * 100))%Z)
    by (apply round_half_even_mono; lra).
  apply IZR_le in H. lra.
Qed.

Lemma py_round_lower (x : R) : (-1 < x)%R -> (-1 <= real_round x 2)%R.
Proof.
  intro Hx. rewrite py_round_hundredths.
  pose proof (@Rabs_le_bounds _ _ (round_half_even_close (x * 100))) as Hc.
  assert (Hlt : (IZR (-101) < IZR (round_half_even (x * 100)))%R) by lra.
  apply lt_IZR in Hlt.
  assert (Hge : (-100 <= round_half_even (x * 100))%Z) by lia.
  apply IZR_le in Hge. lra.
Qed.

Lemma real_round_zero : real_round 0 2 = 0%R.
Proof.
  pose proof (py_round_close 0) as Hc. apply Rabs_le_bounds in Hc.
  rewrite py_round_hundredths in *.
  set (n := round_half_even (0 * 100)) in *.
  assert (-1 < IZR n < 1)%R as [Hl Hu] by lra.
  apply lt_IZR in Hl. apply lt_IZR in Hu.
  replace n with 0%Z by lia. lra.
Qed.

Lemma py_round_zero : real_round (real_float (real_expm1 0)) 2 = 0%R.
Proof.
  assert (Hx : real_expm1 0 = 0%R) by (unfold real_expm1; rewrite exp_0; lra).
  unfold real_float. rewrite Hx.
  pose proof (py_round_close 0) as Hc. apply Rabs_le_bounds in Hc.
  rewrite py_round_hundredths in *.
  set (n := round_half_even (0 * 100)) in *.
  assert (-1 < IZR n < 1)%R as [Hl Hu] by lra.
  apply lt_IZR in Hl. apply lt_IZR in Hu.
  replace n with 0%Z by lia. lra.
Qed.

(** ** The sample artifacts *)

Lemma identity_order_ok : iteration_order identity_order.
Proof. intro l. apply Permutation_refl. Qed.

Lemma reverse_order_ok : iteration_order reverse_order.
Proof. intro l. apply Permutation_sym, Permutation_rev. Qed.

Lemma row_to_floats_numeric (row : list pyval) :
  forallb is_numeric row = true -> exists xs, row_to_floats row = Ok xs.
Proof.
  induction row as [|v row IH]; simpl; intro H; [now exists []|].
  apply andb_prop in H. destruct H as [Hv Hrow].
  destruct (IH Hrow) as [xs Hxs]. rewrite Hxs.
  destruct v; try discriminate; simpl; eexists; reflexivity.
Qed.

Lemma unit_scaler_accepts (names : list string) :
  scaler_accepts_numbers (unit_scaler names).
Proof.
  intros row _ Hnum. simpl.
  destruct (row_to_floats_numeric row Hnum) as [xs Hxs].
  rewrite Hxs. simpl. now exists [xs].
Qed.

Lemma constant_model_answers (y : R) : model_answers (constant_model y).
Proof. intro a. now exists y, [], []. Qed.

Lemma wide_model_answers : model_answers wide_model.
Proof. intro a. now exists 0%R, [5%R], [[7; 9]%R]. Qed.

Lemma sample_record_ok : feature_record sample_record.
Proof.
  split; [|reflexivity].
  unfold dict_keys_distinct. simpl.
  repeat constructor; simpl; intuition discriminate.
Qed.

(** The model on small inputs. *)

Example frame_of_sequence :
  pd_DataFrame1 (PList [PInt 7; PStr "x"])
  = mkFrame [LPos 0; LPos 1] [[PInt 7; PStr "x"]].
Proof. reflexivity. Qed.

Example frame_of_empty_object :
  pd_DataFrame1 (PDict []) = mkFrame [] [[]].
Proof. reflexivity. Qed.

Example setitem_appends_then_overwrites :
  setitem_scalar (setitem_scalar (mkFrame [LStr "a"] [[PInt 5]]) (LStr "b") (PInt 0))
                 (LStr "a") (PInt 0)
  = mkFrame [LStr "a"; LStr "b"] [[PInt 0; PInt 0]].
Proof. reflexivity. Qed.

Example repr_of_plain_string : py_repr "rooms" = "'rooms'".
Proof. reflexivity. Qed.

Example str_of_key_error :
  py_str (KeyError "['b'] not in index")
  = String double_quote ("['b'] not in index" ++ String double_quote EmptyString).
Proof. reflexivity. Qed.

Example getitem_of_absent_label :
  getitem_list (mkFrame [LStr "a"] [[PInt 5]]) [LStr "a"; LStr "b"]
  = Raise (KeyError "['b'] not in index").
Proof. reflexivity. Qed.

Example aligned_in_reverse_order :
  fst (aligned_frame reverse_order 0 (unit_scaler ["rooms"; "area"; "age"])
                     (sample_holding (PDict sample_record)))
  = Ok (mkFrame [LStr "rooms"; LStr "area"; LStr "age"]
                [[PInt 0; PInt 120; PInt 0]]).
Proof. reflexivity. Qed.

Example null_body_is_zero_filled :
  fst (aligned_frame identity_order 0 (unit_scaler sample_names) (sample_holding PNone))
  = Ok (mkFrame [LStr "area"; LStr "rooms"] [[PInt 0; PInt 0]]).
Proof. reflexivity. Qed.

(** ** C1: alignment to the scaler's features *)

(** C1. For a JSON object held at [house_data], the frame that
    [preprocess_single_house] hands to [scaler.transform] has exactly the
    columns [scaler.feature_names_in_], in that order, in one row: under each
    feature the input's value, or zero when the input lacks it; fields of the
    input that are no feature do not appear.  Consequently a feature record,
    complete or not, gets a price from the endpoint, provided the scaler
    accepts numbers and the model answers. *)
Theorem preprocess_aligns_to_feature_names {N : Numerics}
        (set_iter : list label -> list label) (s : Process) (house_data : loc)
        (kvs : list (string * pyval)) (sc : Scaler) :
  iteration_order set_iter ->
  dict_keys_distinct kvs ->
  nth_error (heap s) house_data = Some (OValue (PDict kvs)) ->
  fst (aligned_frame set_iter house_data sc s)
  = Ok (mkFrame (map LStr (feature_names_in_ sc))
                [map (aligned_cell kvs) (feature_names_in_ sc)])
  /\ fst (preprocess_single_house set_iter house_data sc s)
     = transform sc (mkFrame (map LStr (feature_names_in_ sc))
                             [map (aligned_cell kvs) (feature_names_in_ sc)])
  /\ (forall k, In k (feature_names_in_ sc) -> dict_get k kvs = None ->
                aligned_cell kvs k = PInt 0)
  /\ (forallb (fun kv => is_numeric (snd kv)) kvs = true ->
      scaler_accepts_numbers (scaler s) ->
      model_answers (model s) ->
      price_response (fst (dispatch_request set_iter (JsonBody (PDict kvs)) s))).
Proof.
  intros Hord Hnd Hv.
  assert (Hframe : fst (aligned_frame set_iter house_data sc s)
                   = Ok (mkFrame (map LStr (feature_names_in_ sc))
                                 [map (aligned_cell kvs) (feature_names_in_ sc)])).
  { rewrite (@aligned_frame_run _ set_iter s house_data sc (PDict kvs) Hv).
    rewrite getitem_zero_filled by assumption. simpl.
    f_equal. now apply aligned_closed_form_dict. }
  split; [exact Hframe|]. split; [|split].
  - rewrite preprocess_value, Hframe. reflexivity.
  - intros k _ Hk. unfold aligned_cell. now rewrite Hk.
  - intros Hnum Hsc Hmd.
    destruct (@record_is_priced _ set_iter kvs s Hord (conj Hnd Hnum) Hsc Hmd)
      as (a & y & rest & others & _ & _ & Hr).
    rewrite Hr. eexists. reflexivity.
Qed.

Lemma preprocess_aligns_to_feature_names_witness :
  fst (aligned_frame identity_order 0 (unit_scaler sample_names)
                     (sample_holding (PDict sample_record)))
  = Ok (mkFrame [LStr "area"; LStr "rooms"] [[PInt 120; PInt 0]])
  /\ price_response
       (fst (dispatch_request identity_order (JsonBody (PDict sample_record))
                              (sample_holding (PDict sample_record)))).
Proof.
  destruct (@preprocess_aligns_to_feature_names _
              identity_order (sample_holding (PDict sample_record)) 0
              sample_record (unit_scaler sample_names)
              identity_order_ok (proj1 sample_record_ok) eq_refl)
    as (Hframe & _ & _ & Hprice).
  split.
  - exact Hframe.
  - apply Hprice.
    + reflexivity.
    + apply unit_scaler_accepts.
    + apply constant_model_answers.
Defined.

(** ** C2: the price is the rounded [expm1] of the model's output *)

(** C2. On the success path the price is [round(float(expm1(y)), 2)] for
    the first value [y] of the model's output, with numpy's [expm1], Python's
    [float] and [round]: when the body decodes, preprocessing returns [a] and
    the model returns an array that starts with [y], the handler answers
    status 200 with the object [{"price": p}] for that [p]; and every answer
    of the handler with status 200 arises in this way. *)
Theorem price_is_rounded_expm1 {N : Numerics}
        (set_iter : list label -> list label) (request : Request) (s : Process) :
  (forall data s0 a s1 y rest others,
      request_json request s = (Ok data, s0) ->
      preprocess_single_house set_iter data (scaler s0) s0 = (Ok a, s1) ->
      model_predict (model s0) a = Ok ((y :: rest) :: others) ->
      predict set_iter request s
      = (Ok (mkResponse 200
               (JsonObject [("price", JNumber (py_round (py_float (expm1 y)) 2))])),
         s1))
  /\ (forall r s',
         predict set_iter request s = (Ok r, s') ->
         status r = 200%Z ->
         exists data s0 a y rest others,
           request_json request s = (Ok data, s0)
           /\ preprocess_single_house set_iter data (scaler s0) s0 = (Ok a, s')
           /\ model_predict (model s0) a = Ok ((y :: rest) :: others)
           /\ r = mkResponse 200
                    (JsonObject
                       [("price", JNumber (py_round (py_float (expm1 y)) 2))])).
Proof.
  split.
  - intros data s0 a s1 y rest others Hreq Hpre Hout.
    destruct (request_json_inv _ _ Hreq) as (v & -> & -> & ->).
    rewrite predict_json. cbv zeta. rewrite predict_try_block_run.
    simpl scaler in *. simpl model in *. rewrite Hpre. simpl.
    unfold inference. now rewrite Hout.
  - intros r s' Hrun Hstatus.
    destruct request as [|v]; [discriminate|].
    rewrite predict_json in Hrun. cbv zeta in Hrun.
    rewrite predict_try_block_run in Hrun. simpl model in Hrun. simpl scaler in Hrun.
    set (s0 := mkProcess (model s) (scaler s) (heap s ++ [OValue v]) (files_read s)) in *.
    exists (List.length (heap s)), s0.
    destruct (preprocess_single_house set_iter (List.length (heap s)) (scaler s) s0)
      as [[a|e] s1] eqn:Hpre; simpl in Hrun.
    2:{ injection Hrun as <- _. discriminate. }
    exists a. unfold inference in Hrun.
    destruct (model_predict (model s) a) as [out|e] eqn:Hout; simpl in Hrun.
    2:{ injection Hrun as <- _. discriminate. }
    destruct out as [|[|y rest] others]; simpl in Hrun;
      try (injection Hrun as <- _; discriminate).
    injection Hrun as <- <-.
    exists y, rest, others. repeat split; assumption.
Qed.

Lemma price_is_rounded_expm1_witness :
  exists s1,
    predict identity_order (JsonBody (PDict sample_record))
            (sample_process (constant_model 12))
    = (Ok (mkResponse 200
             (JsonObject [("price", JNumber (py_round (py_float (expm1 12%R)) 2))])),
       s1).
Proof.
  eexists.
  eapply (proj1 (@price_is_rounded_expm1 _ identity_order
                   (JsonBody (PDict sample_record))
                   (sample_process (constant_model 12)))).
  - reflexivity.
  - reflexivity.
  - reflexivity.
Defined.

(** ** C3: a body that is not JSON *)

(** C3 (what the code does). [request.json] is evaluated before the [try]
    block, so on a body that does not decode the handler returns nothing:
    werkzeug's [BadRequest] leaves it, and Flask answers with status 400 and
    an HTML page, which has no ["error"] field. *)
Theorem malformed_body_escapes_try {N : Numerics}
        (set_iter : list label -> list label) (s : Process) :
  predict set_iter MalformedBody s
  = (Raise (BadRequest
      "The browser (or proxy) sent a request that this server could not understand."),
     s)
  /\ status (fst (dispatch_request set_iter MalformedBody s)) = 400%Z
  /\ ~ has_error_field (fst (dispatch_request set_iter MalformedBody s)).
Proof.
  split; [reflexivity|]. split; [reflexivity|].
  intros (fields & v & Hpayload & _). discriminate.
Qed.

(** ** C4: exceptions of the [try] block *)

(** C4. Once the body has decoded, an exception raised by
    [preprocess_single_house], or after it by [model.predict] or by taking
    [[0][0]] of the result, does not leave the handler: the handler returns
    status 400 with the object [{"error": str(e)}]. *)
Theorem exceptions_become_error_400 {N : Numerics}
        (set_iter : list label -> list label) (request : Request)
        (s s0 s1 : Process) (data : loc) (e : PyException) :
  request_json request s = (Ok data, s0) ->
  preprocess_single_house set_iter data (scaler s0) s0 = (Raise e, s1)
  \/ (exists a, preprocess_single_house set_iter data (scaler s0) s0 = (Ok a, s1)
                /\ inference (model s0) a = Raise e) ->
  predict_try_block set_iter data s0 = (Raise e, s1)
  /\ predict set_iter request s
     = (Ok (mkResponse 400 (JsonObject [("error", JString (py_str e))])), s1).
Proof.
  intros Hreq Hraise.
  destruct (request_json_inv _ _ Hreq) as (v & -> & -> & ->).
  assert (Hblock : predict_try_block set_iter (List.length (heap s))
                     (mkProcess (model s) (scaler s) (heap s ++ [OValue v]) (files_read s))
                   = (Raise e, s1)).
  { rewrite predict_try_block_run.
    destruct Hraise as [Hpre | [a [Hpre Hinf]]];
      simpl scaler in *; simpl model in *; rewrite Hpre; simpl; [reflexivity|].
    now rewrite Hinf. }
  split; [exact Hblock|].
  rewrite predict_json. cbv zeta. now rewrite Hblock.
Qed.

Lemma exceptions_become_error_400_witness :
  predict_try_block identity_order 0
    (snd (request_json (JsonBody (PDict sample_bad_record))
                       (sample_process (constant_model 12))))
  = (Raise (LibraryError "ValueError" "could not convert value to float"),
     mkProcess (constant_model 12) (unit_scaler sample_names)
       [OValue (PDict sample_bad_record);
        OFrame (mkFrame [LStr "area"; LStr "rooms"] [[PStr "large"; PInt 0]]);
        OFrame (mkFrame [LStr "area"; LStr "rooms"] [[PStr "large"; PInt 0]])]
       ["house_price_model.keras"; "scaler.save"])
  /\ predict identity_order (JsonBody (PDict sample_bad_record))
             (sample_process (constant_model 12))
     = (Ok (mkResponse 400
              (JsonObject [("error", JString "could not convert value to float")])),
        mkProcess (constant_model 12) (unit_scaler sample_names)
          [OValue (PDict sample_bad_record);
           OFrame (mkFrame [LStr "area"; LStr "rooms"] [[PStr "large"; PInt 0]]);
           OFrame (mkFrame [LStr "area"; LStr "rooms"] [[PStr "large"; PInt 0]])]
          ["house_price_model.keras"; "scaler.save"]).
Proof.
  apply (@exceptions_become_error_400 _ identity_order
           (JsonBody (PDict sample_bad_record)) (sample_process (constant_model 12))).
  - reflexivity.
  - left. reflexivity.
Defined.

(** ** C5: the sign of the price *)

(** C5 as stated fails: a model that answers 0 prices a well-formed feature
    record at [round(expm1(0), 2)], which is 0 and not positive. *)
Lemma zero_output_price_not_positive :
  feature_record sample_record
  /\ scaler_accepts_numbers (scaler (sample_process (constant_model 0)))
  /\ model_answers (model (sample_process (constant_model 0)))
  /\ ~ positive_price
       (fst (dispatch_request identity_order (JsonBody (PDict sample_record))
                              (sample_process (constant_model 0)))).
Proof.
  split; [apply sample_record_ok|].
  split; [apply unit_scaler_accepts|].
  split; [apply constant_model_answers|].
  intros (x & Hr & Hx).
  assert (Hx0 : x = real_round (real_float (real_expm1 0)) 2).
  { change (fst (dispatch_request identity_order (JsonBody (PDict sample_record))
                                  (sample_process (constant_model 0))))
      with (mkResponse 200
              (JsonObject
                 [("price", JNumber (real_round (real_float (real_expm1 0)) 2))]))
      in Hr.
    now injection Hr. }
  rewrite Hx0, py_round_zero in Hx. lra.
Qed.

(** C5, amended. For every feature record that the scaler accepts and to
    which the model answers with a first value [y], the endpoint returns
    status 200 and a float price; the sign of the price follows the model: it
    is positive whenever [y] is at least 0.01 and it is not positive whenever
    [y] is 0 or less.  (Floats idealised as reals.) *)
Theorem price_sign_follows_output
        (set_iter : list label -> list label) (kvs : list (string * pyval))
        (s : Process) (a : ndarray) (y : R) (rest : list R) (others : ndarray) :
  iteration_order set_iter ->
  feature_record kvs ->
  transform (scaler s)
    (mkFrame (map LStr (feature_names_in_ (scaler s)))
             [map (aligned_cell kvs) (feature_names_in_ (scaler s))]) = Ok a ->
  model_predict (model s) a = Ok ((y :: rest) :: others) ->
  exists p : R,
    fst (dispatch_request set_iter (JsonBody (PDict kvs)) s)
    = mkResponse 200 (JsonObject [("price", JNumber p)])
    /\ ((1 / 100 <= y)%R -> (0 < p)%R)
    /\ ((y <= 0)%R -> (p <= 0)%R).
Proof.
  intros Hord [Hnd _] Ha Hy.
  exists (real_round (real_float (real_expm1 y)) 2). split; [|split].
  - rewrite dispatch_json by assumption. unfold closed_answer.
    rewrite aligned_closed_form_dict by assumption.
    rewrite Ha. simpl. unfold inference. rewrite Hy. reflexivity.
  - intro Hy1. apply py_round_pos. unfold real_float, real_expm1.
    assert (1 + y < exp y)%R by (apply exp_ineq1; lra). lra.
  - intro Hy0. rewrite <- real_round_zero. apply py_round_mono.
    unfold real_float, real_expm1.
    destruct (Req_dec y 0) as [->|Hne]; [rewrite exp_0; lra|].
    assert (exp y < exp 0)%R by (apply exp_increasing; lra).
    rewrite exp_0 in *. lra.
Qed.

Lemma price_sign_follows_output_witness :
  exists p : R,
    fst (dispatch_request identity_order (JsonBody (PDict sample_record))
                          (sample_process (constant_model 12)))
    = mkResponse 200 (JsonObject [("price", JNumber p)])
    /\ ((1 / 100 <= 12)%R -> (0 < p)%R)
    /\ ((12 <= 0)%R -> (p <= 0)%R).
Proof.
  apply (@price_sign_follows_output identity_order sample_record
           (sample_process (constant_model 12)) [[120; 0]%R] 12%R [] []).
  - apply identity_order_ok.
  - apply sample_record_ok.
  - reflexivity.
  - reflexivity.
Defined.

(** ** C6: the shapes of a response *)

(** When the body decodes, the response is one of the two JSON shapes, and
    never both. *)
Lemma decoded_body_two_shapes {N : Numerics} (set_iter : list label -> list label) (v : pyval)
      (s : Process) :
  let r := fst (dispatch_request set_iter (JsonBody v) s) in
  (price_response r \/ error_response r)
  /\ ~ (price_response r /\ error_response r).
Proof.
  cbv zeta. unfold dispatch_request. rewrite predict_json. cbv zeta.
  rewrite predict_try_block_run. split.
  - destruct (rbind _ _) as [r|e] eqn:Hr; simpl.
    + left. unfold inference in Hr.
      destruct (fst (preprocess_single_house _ _ _ _)) as [a|?]; simpl in Hr;
        [|discriminate].
      destruct (model_predict _ a) as [out|?]; simpl in Hr; [|discriminate].
      destruct (getitem0 (np_expm1 out)) as [row0|?]; simpl in Hr; [|discriminate].
      destruct (getitem0 row0) as [x|?]; simpl in Hr; [|discriminate].
      injection Hr as <-. eexists. reflexivity.
    + right. eexists. reflexivity.
  - intros [[x Hx] [msg Hmsg]]. rewrite Hx in Hmsg. discriminate.
Qed.

(** C6 (what the code does). A body that does not decode is answered with
    neither shape: [request.json] raises before the [try] block and Flask
    sends its own HTML page under status 400. *)
Theorem malformed_body_has_neither_shape {N : Numerics}
        (set_iter : list label -> list label) (s : Process) :
  fst (dispatch_request set_iter MalformedBody s)
  = mkResponse 400
      (HtmlPage
         "The browser (or proxy) sent a request that this server could not understand.")
  /\ ~ price_response (fst (dispatch_request set_iter MalformedBody s))
  /\ ~ error_response (fst (dispatch_request set_iter MalformedBody s)).
Proof.
  split; [reflexivity|]. split.
  - intros [x Hx]. discriminate.
  - intros [msg Hmsg]. discriminate.
Qed.

(** ** C7: the globals after startup *)

(** C7. Startup reads each of the two files once and binds [model] and
    [scaler] to what they hold; after any sequence of requests the two
    globals are still those values and no file has been read again. *)
Theorem globals_fixed_after_startup {N : Numerics}
        (disk : Disk) (s0 : Process) (set_iter : list label -> list label)
        (requests : list Request) :
  startup disk = Ok s0 ->
  files_read s0 = ["house_price_model.keras"; "scaler.save"]
  /\ load_trained_model_and_scaler disk
     = (Ok (model (snd (serve set_iter requests s0)),
            scaler (snd (serve set_iter requests s0))),
        files_read (snd (serve set_iter requests s0)))
  /\ model (snd (serve set_iter requests s0)) = model s0
  /\ scaler (snd (serve set_iter requests s0)) = scaler s0.
Proof.
  intro Hstart.
  destruct (serve_extends set_iter requests s0) as (Hm & Hs & Hf & _).
  rewrite Hm, Hs, Hf.
  unfold startup, load_trained_model_and_scaler in *.
  destruct (load_model disk "house_price_model.keras") as [m|e]; [|discriminate].
  destruct (joblib_load disk "scaler.save") as [sc|e]; [|discriminate].
  injection Hstart as <-. simpl. repeat split.
Qed.

Lemma globals_fixed_after_startup_witness :
  files_read (sample_process (constant_model 12))
  = ["house_price_model.keras"; "scaler.save"]
  /\ load_trained_model_and_scaler sample_disk
     = (Ok (model (snd (serve reverse_order
                          [JsonBody (PDict sample_record); MalformedBody;
                           JsonBody (PDict sample_bad_record)]
                          (sample_process (constant_model 12)))),
            scaler (snd (serve reverse_order
                           [JsonBody (PDict sample_record); MalformedBody;
                            JsonBody (PDict sample_bad_record)]
                           (sample_process (constant_model 12))))),
        files_read (snd (serve reverse_order
                           [JsonBody (PDict sample_record); MalformedBody;
                            JsonBody (PDict sample_bad_record)]
                           (sample_process (constant_model 12)))))
  /\ model (snd (serve reverse_order
                   [JsonBody (PDict sample_record); MalformedBody;
                    JsonBody (PDict sample_bad_record)]
                   (sample_process (constant_model 12))))
     = model (sample_process (constant_model 12))
  /\ scaler (snd (serve reverse_order
                    [JsonBody (PDict sample_record); MalformedBody;
                     JsonBody (PDict sample_bad_record)]
                    (sample_process (constant_model 12))))
     = scaler (sample_process (constant_model 12)).
Proof.
  apply (@globals_fixed_after_startup _ sample_disk).
  reflexivity.
Defined.

(** ** C8: the argument of [preprocess_single_house] *)

(** C8. [preprocess_single_house] leaves the object at [house_data] as it
    was, and with it every object that existed before the call: it writes
    only to the frames it creates. *)
Theorem preprocess_keeps_house_data {N : Numerics}
        (set_iter : list label -> list label) (s : Process) (house_data : loc)
        (sc : Scaler) :
  nth_error (heap (snd (preprocess_single_house set_iter house_data sc s))) house_data
  = nth_error (heap s) house_data
  /\ firstn (List.length (heap s))
            (heap (snd (preprocess_single_house set_iter house_data sc s)))
     = heap s.
Proof.
  rewrite preprocess_state. split.
  - destruct (nth_error (heap s) house_data) as [[v|df]|] eqn:Hn.
    + destruct (aligned_frame_extends set_iter s house_data sc)
        as (_ & _ & _ & fresh & Hh).
      rewrite Hh. now apply nth_error_old.
    + rewrite aligned_frame_no_value by congruence. exact Hn.
    + rewrite aligned_frame_no_value by congruence. exact Hn.
  - destruct (aligned_frame_extends set_iter s house_data sc)
      as (_ & _ & _ & fresh & Hh).
    rewrite Hh, firstn_app, Nat.sub_diag, firstn_all. simpl. apply app_nil_r.
Qed.

(** ** C9: equal bodies, equal responses *)

(** C9. Two requests with the same body, served by processes that hold the
    same model and scaler, get the same response, whatever else the two
    heaps hold and in whatever order each run iterates over the set of
    missing features. *)
Theorem predict_is_deterministic {N : Numerics}
        (set_iter1 set_iter2 : list label -> list label) (request : Request)
        (s1 s2 : Process) :
  iteration_order set_iter1 ->
  iteration_order set_iter2 ->
  model s1 = model s2 ->
  scaler s1 = scaler s2 ->
  fst (dispatch_request set_iter1 request s1)
  = fst (dispatch_request set_iter2 request s2).
Proof.
  intros H1 H2 Hm Hs. destruct request as [|v].
  - reflexivity.
  - rewrite !dispatch_json by assumption. now rewrite Hm, Hs.
Qed.

Lemma predict_is_deterministic_witness :
  fst (dispatch_request identity_order (JsonBody (PDict sample_record))
                        (sample_process (constant_model 12)))
  = fst (dispatch_request reverse_order (JsonBody (PDict sample_record))
                          (sample_holding (PList [PInt 1; PInt 2]))).
Proof.
  apply predict_is_deterministic.
  - apply identity_order_ok.
  - apply reverse_order_ok.
  - reflexivity.
  - reflexivity.
Defined.

(** ** C10: one house per request *)

(** C10. One request is one house.  For a decoded body [v] (an object with
    distinct keys, or any other value) the frame built from [v] has one row;
    the frame that [preprocess_single_house] hands to [scaler.transform] is
    the single row of [v]'s cells under the feature names, and what
    [preprocess_single_house] returns is the scaler's result on that row.
    When the scaler accepts the row and the model returns an array that
    starts with [y], the response is status 200 with the price
    [round(float(expm1(y)), 2)]: it is computed from [[0][0]] alone, whatever
    else the array holds. *)
Theorem one_house_per_request {N : Numerics}
        (set_iter : list label -> list label) (v : pyval) (s : Process) :
  iteration_order set_iter ->
  body_well_formed v ->
  fst (request_json (JsonBody v) s) = Ok (List.length (heap s))
  /\ List.length (rows (pd_DataFrame1 v)) = 1
  /\ fst (aligned_frame set_iter (List.length (heap s)) (scaler s)
             (snd (request_json (JsonBody v) s)))
     = Ok (mkFrame (map LStr (feature_names_in_ (scaler s)))
                   [map (body_cell v) (feature_names_in_ (scaler s))])
  /\ fst (preprocess_single_house set_iter (List.length (heap s)) (scaler s)
             (snd (request_json (JsonBody v) s)))
     = transform (scaler s)
         (mkFrame (map LStr (feature_names_in_ (scaler s)))
                  [map (body_cell v) (feature_names_in_ (scaler s))])
  /\ (forall a y rest others,
         transform (scaler s)
           (mkFrame (map LStr (feature_names_in_ (scaler s)))
                    [map (body_cell v) (feature_names_in_ (scaler s))]) = Ok a ->
         model_predict (model s) a = Ok ((y :: rest) :: others) ->
         fst (dispatch_request set_iter (JsonBody v) s)
         = mkResponse 200
             (JsonObject [("price", JNumber (py_round (py_float (expm1 y)) 2))])).
Proof.
  intros Hord Hv.
  assert (Hframe :
            fst (aligned_frame set_iter (List.length (heap s)) (scaler s)
                   (snd (request_json (JsonBody v) s)))
            = Ok (mkFrame (map LStr (feature_names_in_ (scaler s)))
                          [map (body_cell v) (feature_names_in_ (scaler s))])).
  { simpl. rewrite (aligned_frame_json v s (scaler s) Hord).
    now rewrite aligned_closed_form_body. }
  split; [reflexivity|]. split.
  { destruct (pd_DataFrame1_shape v) as [row [Hrow _]]. now rewrite Hrow. }
  split; [exact Hframe|]. split.
  - rewrite preprocess_value, Hframe. reflexivity.
  - intros a y rest others Ha Hy.
    rewrite dispatch_json by assumption. unfold closed_answer.
    rewrite aligned_closed_form_body by assumption.
    rewrite Ha. simpl. unfold inference. now rewrite Hy.
Qed.

Lemma one_house_per_request_witness :
  fst (aligned_frame identity_order 0 (unit_scaler sample_names)
         (snd (request_json (JsonBody (PDict sample_record))
                            (sample_process wide_model))))
  = Ok (mkFrame [LStr "area"; LStr "rooms"] [[PInt 120; PInt 0]])
  /\ fst (dispatch_request identity_order (JsonBody (PDict sample_record))
                           (sample_process wide_model))
     = mkResponse 200
         (JsonObject [("price", JNumber (py_round (py_float (expm1 0%R)) 2))]).
Proof.
  destruct (@one_house_per_request _ identity_order (PDict sample_record)
              (sample_process wide_model) identity_order_ok
              (proj1 sample_record_ok))
    as (_ & _ & Hframe & _ & Hprice).
  split.
  - exact Hframe.
  - apply (Hprice [[120; 0]%R] 0%R [5%R] [[7; 9]%R]).
    + reflexivity.
    + reflexivity.
Defined.

(** * Further properties of the handler and of preprocessing *)

(** ** Helpers *)

Lemma dict_get_None {N : Numerics} (k : string) (kvs : list (string * pyval)) :
  dict_get k kvs = None <-> ~ In k (map fst kvs).
Proof.
  induction kvs as [|[k' v] kvs IH]; simpl.
  - tauto.
  - destruct (string_dec k k') as [->|Hne].
    + split; [discriminate | intro H; exfalso; apply H; now left].
    + rewrite IH. split; intro H; [intros [E|E]; [congruence | tauto] | tauto].
Qed.

Lemma dict_get_In {N : Numerics} (k : string) (v : pyval) (kvs : list (string * pyval)) :
  dict_keys_distinct kvs ->
  dict_get k kvs = Some v <-> In (k, v) kvs.
Proof.
  unfold dict_keys_distinct.
  induction kvs as [|[k' v'] kvs IH]; simpl; intro Hnd.
  - split; [discriminate | tauto].
  - inversion Hnd as [|? ? Hk' Hnd']; subst.
    destruct (string_dec k k') as [->|Hne].
    + split.
      * intro H. injection H as ->. now left.
      * intros [E|E]; [now injection E as -> | ].
        exfalso. apply Hk'. apply in_map_iff. now exists (k', v).
    + rewrite (IH Hnd'). split; [tauto | intros [E|E]; [congruence | assumption]].
Qed.

Lemma dict_get_permutation {N : Numerics} (k : string) (kvs1 kvs2 : list (string * pyval)) :
  dict_keys_distinct kvs1 ->
  Permutation kvs1 kvs2 ->
  dict_keys_distinct kvs2 /\ dict_get k kvs1 = dict_get k kvs2.
Proof.
  intros Hnd Hp.
  assert (Hnd2 : dict_keys_distinct kvs2).
  { unfold dict_keys_distinct in *.
    apply (Permutation_NoDup (Permutation_map fst Hp) Hnd). }
  split; [assumption|].
  destruct (dict_get k kvs1) as [v|] eqn:H1.
  - apply (dict_get_In k v Hnd) in H1. symmetry. apply (dict_get_In k v Hnd2).
    now apply (Permutation_in _ Hp).
  - destruct (dict_get k kvs2) as [v|] eqn:H2; [|reflexivity].
    apply (dict_get_In k v Hnd2) in H2.
    apply (Permutation_in _ (Permutation_sym Hp)) in H2.
    apply (dict_get_In k v Hnd) in H2. congruence.
Qed.

(** Records whose aligned cells agree on the features get the same answer. *)
Lemma same_cells_same_response {N : Numerics} (set_iter : list label -> list label)
      (kvs1 kvs2 : list (string * pyval)) (s : Process) :
  iteration_order set_iter ->
  dict_keys_distinct kvs1 ->
  dict_keys_distinct kvs2 ->
  (forall k, In k (feature_names_in_ (scaler s)) ->
             aligned_cell kvs1 k = aligned_cell kvs2 k) ->
  fst (dispatch_request set_iter (JsonBody (PDict kvs1)) s)
  = fst (dispatch_request set_iter (JsonBody (PDict kvs2)) s).
Proof.
  intros Hord H1 H2 Hcells.
  rewrite !dispatch_json by assumption. unfold closed_answer.
  rewrite !aligned_closed_form_dict by assumption.
  now rewrite (map_ext_in _ _ _ Hcells).
Qed.

Lemma dispatch_same_globals {N : Numerics} (set_iter : list label -> list label)
      (request : Request) (s1 s2 : Process) :
  iteration_order set_iter ->
  model s1 = model s2 ->
  scaler s1 = scaler s2 ->
  fst (dispatch_request set_iter request s1)
  = fst (dispatch_request set_iter request s2).
Proof.
  intros Hord Hm Hs. destruct request as [|v]; [reflexivity|].
  rewrite !dispatch_json by assumption. now rewrite Hm, Hs.
Qed.

(** A status-200 answer of the handler is a price computed from some value
    of the model's output. *)
Lemma success_price_form {N : Numerics} (set_iter : list label -> list label) (request : Request)
      (s s' : Process) (r : Response) :
  predict set_iter request s = (Ok r, s') ->
  status r = 200%Z ->
  exists y, r = mkResponse 200 (JsonObject [("price", JNumber (py_round (py_float (expm1 y)) 2))]).
Proof.
  intros Hrun Hstatus.
  destruct request as [|v]; [discriminate|].
  rewrite predict_json in Hrun. cbv zeta in Hrun.
  rewrite predict_try_block_run in Hrun.
  destruct (fst (preprocess_single_house _ _ _ _)) as [a|e]; simpl in Hrun.
  2:{ injection Hrun as <- _. discriminate. }
  unfold inference in Hrun.
  destruct (model_predict _ a) as [out|e]; simpl in Hrun.
  2:{ injection Hrun as <- _. discriminate. }
  destruct out as [|[|y rest] others]; simpl in Hrun;
    try (injection Hrun as <- _; discriminate).
  injection Hrun as <- _. now exists y.
Qed.

(** ** Bodies that are no object *)

(** X1. A body that decodes to anything but an object ([null], a number, a
    string, a list) is not refused: no column of its frame is a feature, so
    every feature is zero-filled and the answer is the one the empty object
    gets. *)
Theorem non_object_body_is_all_zero {N : Numerics}
        (set_iter : list label -> list label) (v : pyval) (s : Process) :
  iteration_order set_iter ->
  (forall kvs, v <> PDict kvs) ->
  fst (aligned_frame set_iter (List.length (heap s)) (scaler s)
         (snd (request_json (JsonBody v) s)))
  = Ok (mkFrame (map LStr (feature_names_in_ (scaler s)))
                [map (fun _ => PInt 0) (feature_names_in_ (scaler s))])
  /\ fst (dispatch_request set_iter (JsonBody v) s)
     = fst (dispatch_request set_iter (JsonBody (PDict [])) s).
Proof.
  intros Hord Hv. split.
  - simpl. rewrite (aligned_frame_json v s (scaler s) Hord).
    now rewrite aligned_closed_form_no_object.
  - rewrite !dispatch_json by assumption. unfold closed_answer.
    rewrite aligned_closed_form_no_object by assumption.
    rewrite aligned_closed_form_dict by constructor.
    reflexivity.
Qed.

Lemma non_object_body_is_all_zero_witness :
  fst (aligned_frame reverse_order 0 (unit_scaler sample_names)
         (snd (request_json (JsonBody (PList [PInt 3; PStr "area"]))
                            (sample_process (constant_model 12)))))
  = Ok (mkFrame [LStr "area"; LStr "rooms"] [[PInt 0; PInt 0]])
  /\ fst (dispatch_request reverse_order (JsonBody (PList [PInt 3; PStr "area"]))
                           (sample_process (constant_model 12)))
     = fst (dispatch_request reverse_order (JsonBody (PDict []))
                             (sample_process (constant_model 12))).
Proof.
  apply (@non_object_body_is_all_zero _ reverse_order (PList [PInt 3; PStr "area"])
           (sample_process (constant_model 12))).
  - apply reverse_order_ok.
  - intros kvs H. discriminate H.
Defined.

(** ** What of a record reaches the model *)

(** X2. Only the values under the scaler's feature names matter: two
    objects that agree on every feature name, whatever other fields they
    carry, get the same response. *)
Theorem other_fields_are_ignored {N : Numerics}
        (set_iter : list label -> list label)
        (kvs1 kvs2 : list (string * pyval)) (s : Process) :
  iteration_order set_iter ->
  dict_keys_distinct kvs1 ->
  dict_keys_distinct kvs2 ->
  (forall k, In k (feature_names_in_ (scaler s)) ->
             dict_get k kvs1 = dict_get k kvs2) ->
  fst (dispatch_request set_iter (JsonBody (PDict kvs1)) s)
  = fst (dispatch_request set_iter (JsonBody (PDict kvs2)) s).
Proof.
  intros Hord H1 H2 Hget.
  apply same_cells_same_response; try assumption.
  intros k Hk. unfold aligned_cell. now rewrite (Hget k Hk).
Qed.

Lemma other_fields_are_ignored_witness :
  fst (dispatch_request identity_order (JsonBody (PDict sample_record))
                        (sample_process (constant_model 12)))
  = fst (dispatch_request identity_order
           (JsonBody (PDict [("area", PInt 120); ("owner", PStr "x")]))
           (sample_process (constant_model 12))).
Proof.
  apply other_fields_are_ignored.
  - apply identity_order_ok.
  - apply (proj1 sample_record_ok).
  - unfold dict_keys_distinct. simpl.
    repeat constructor; simpl; intuition discriminate.
  - intros k [<-|[<-|[]]]; reflexivity.
Defined.

(** X3. A feature that the object lacks cannot be told from one given as
    the integer 0: adding [k: 0] for a key the object does not have leaves
    the response as it was. *)
Theorem missing_feature_is_explicit_zero {N : Numerics}
        (set_iter : list label -> list label) (k : string)
        (kvs : list (string * pyval)) (s : Process) :
  iteration_order set_iter ->
  dict_keys_distinct kvs ->
  dict_get k kvs = None ->
  fst (dispatch_request set_iter (JsonBody (PDict ((k, PInt 0) :: kvs))) s)
  = fst (dispatch_request set_iter (JsonBody (PDict kvs)) s).
Proof.
  intros Hord Hnd Hk.
  apply same_cells_same_response; try assumption.
  - unfold dict_keys_distinct. simpl. constructor; [|assumption].
    now apply dict_get_None.
  - intros k' _. unfold aligned_cell. simpl.
    destruct (string_dec k' k) as [->|Hne]; [now rewrite Hk | reflexivity].
Qed.

Lemma missing_feature_is_explicit_zero_witness :
  fst (dispatch_request identity_order
         (JsonBody (PDict (("rooms", PInt 0) :: sample_record)))
         (sample_process (constant_model 12)))
  = fst (dispatch_request identity_order (JsonBody (PDict sample_record))
                          (sample_process (constant_model 12))).
Proof.
  apply missing_feature_is_explicit_zero.
  - apply identity_order_ok.
  - apply (proj1 sample_record_ok).
  - reflexivity.
Defined.

(** X4. The order of the keys in the object does not matter: an object and
    any rearrangement of its fields get the same response. *)
Theorem key_order_is_irrelevant {N : Numerics}
        (set_iter : list label -> list label)
        (kvs1 kvs2 : list (string * pyval)) (s : Process) :
  iteration_order set_iter ->
  dict_keys_distinct kvs1 ->
  Permutation kvs1 kvs2 ->
  fst (dispatch_request set_iter (JsonBody (PDict kvs1)) s)
  = fst (dispatch_request set_iter (JsonBody (PDict kvs2)) s).
Proof.
  intros Hord Hnd Hp.
  apply same_cells_same_response; try assumption.
  - exact (proj1 (@dict_get_permutation _ EmptyString kvs1 kvs2 Hnd Hp)).
  - intros k _. unfold aligned_cell.
    now rewrite (proj2 (@dict_get_permutation _ k kvs1 kvs2 Hnd Hp)).
Qed.

Lemma key_order_is_irrelevant_witness :
  fst (dispatch_request identity_order (JsonBody (PDict sample_record))
                        (sample_process (constant_model 12)))
  = fst (dispatch_request identity_order (JsonBody (PDict (rev sample_record)))
                          (sample_process (constant_model 12))).
Proof.
  apply key_order_is_irrelevant.
  - apply identity_order_ok.
  - apply (proj1 sample_record_ok).
  - apply Permutation_rev.
Defined.

(** ** Requests do not see each other *)

(** X5. The response to a request does not depend on the requests served
    before it: serving a sequence gives, request by request, what each one
    would get from the process as it was at the start. *)
Theorem responses_ignore_history {N : Numerics}
        (set_iter : list label -> list label) (requests : list Request)
        (s : Process) :
  iteration_order set_iter ->
  fst (serve set_iter requests s)
  = map (fun q => fst (dispatch_request set_iter q s)) requests.
Proof.
  intro Hord. revert s.
  induction requests as [|q qs IH]; intro s; simpl; [reflexivity|].
  destruct (dispatch_extends set_iter q s) as (Hm & Hs & _).
  destruct (dispatch_request set_iter q s) as [r s'] eqn:Hq.
  pose proof (IH s') as IH'.
  destruct (serve set_iter qs s') as [rs s'']. simpl in *.
  f_equal. rewrite IH'. apply map_ext. intro q'.
  now apply dispatch_same_globals.
Qed.

Lemma responses_ignore_history_witness :
  fst (serve reverse_order
         [JsonBody (PDict sample_bad_record); MalformedBody;
          JsonBody (PDict sample_record)]
         (sample_process (constant_model 12)))
  = map (fun q => fst (dispatch_request reverse_order q
                         (sample_process (constant_model 12))))
        [JsonBody (PDict sample_bad_record); MalformedBody;
         JsonBody (PDict sample_record)].
Proof.
  apply responses_ignore_history. apply reverse_order_ok.
Defined.

(** ** The model's output *)

(** X6. When the model returns an array without a first row, or whose first
    row is empty, taking [[0][0]] raises [IndexError] inside the [try]
    block, and the answer is status 400 with numpy's text as the error. *)
Theorem empty_output_is_error_400 {N : Numerics}
        (set_iter : list label -> list label) (request : Request)
        (s s0 : Process) (data : loc) (a : ndarray) :
  request_json request s = (Ok data, s0) ->
  fst (preprocess_single_house set_iter data (scaler s0) s0) = Ok a ->
  model_predict (model s0) a = Ok []
  \/ (exists others, model_predict (model s0) a = Ok ([] :: others)) ->
  fst (dispatch_request set_iter request s)
  = mkResponse 400
      (JsonObject
         [("error", JString "index 0 is out of bounds for axis 0 with size 0")]).
Proof.
  intros Hreq Hpre Hout.
  destruct (request_json_inv _ _ Hreq) as (v & -> & -> & ->).
  unfold dispatch_request. rewrite predict_json. cbv zeta.
  rewrite predict_try_block_run. simpl scaler in *. simpl model in *.
  rewrite Hpre. simpl. unfold inference.
  destruct Hout as [Hout | [others Hout]]; now rewrite Hout.
Qed.

Lemma empty_output_is_error_400_witness :
  fst (dispatch_request identity_order (JsonBody (PDict sample_record))
                        (sample_process hollow_model))
  = mkResponse 400
      (JsonObject
         [("error", JString "index 0 is out of bounds for axis 0 with size 0")]).
Proof.
  apply (@empty_output_is_error_400 _ identity_order (JsonBody (PDict sample_record))
           (sample_process hollow_model)
           (snd (request_json (JsonBody (PDict sample_record))
                              (sample_process hollow_model)))
           0 [[120; 0]%R]).
  - reflexivity.
  - reflexivity.
  - right. exists []. reflexivity.
Defined.

(** X7. A price is never below -1: [expm1] stays above -1 and rounding to
    hundredths cannot cross it.  So a status-200 answer may carry a negative
    price, but none under -1. *)
Theorem price_at_least_minus_one
        (set_iter : list label -> list label) (request : Request)
        (s s' : Process) (x : R) :
  predict set_iter request s
  = (Ok (mkResponse 200 (JsonObject [("price", JNumber x)])), s') ->
  (-1 <= x)%R.
Proof.
  intro Hrun.
  destruct (success_price_form _ _ _ Hrun eq_refl) as [y Hy].
  injection Hy as ->. apply py_round_lower.
  simpl. unfold real_float, real_expm1. pose proof (exp_pos y). lra.
Qed.

Lemma price_at_least_minus_one_witness :
  (-1 <= py_round (py_float (expm1 12)) 2)%R.
Proof.
  eapply (@price_at_least_minus_one identity_order
            (JsonBody (PDict sample_record)) (sample_process (constant_model 12))).
  reflexivity.
Defined.

(** X8. Lines 16 to 18 are monotone in the model's output: of two outputs
    whose first values are [y1 <= y2], the second gets a price that is not
    lower. *)
Theorem price_monotone_in_output
        (md1 md2 : Model) (a1 a2 : ndarray) (y1 y2 : R)
        (rest1 rest2 : list R) (others1 others2 : ndarray) :
  model_predict md1 a1 = Ok ((y1 :: rest1) :: others1) ->
  model_predict md2 a2 = Ok ((y2 :: rest2) :: others2) ->
  (y1 <= y2)%R ->
  exists p1 p2,
    inference md1 a1 = Ok (mkResponse 200 (JsonObject [("price", JNumber p1)]))
    /\ inference md2 a2 = Ok (mkResponse 200 (JsonObject [("price", JNumber p2)]))
    /\ (p1 <= p2)%R.
Proof.
  intros H1 H2 Hy. unfold inference. rewrite H1, H2. simpl.
  eexists. eexists. split; [reflexivity|]. split; [reflexivity|].
  simpl. apply py_round_mono. unfold real_float, real_expm1.
  destruct (Req_dec y1 y2) as [->|Hne]; [lra|].
  assert (exp y1 < exp y2)%R by (apply exp_increasing; lra). lra.
Qed.

Lemma price_monotone_in_output_witness :
  exists p1 p2,
    inference wide_model []
    = Ok (mkResponse 200 (JsonObject [("price", JNumber p1)]))
    /\ inference (constant_model 12) []
       = Ok (mkResponse 200 (JsonObject [("price", JNumber p2)]))
    /\ (p1 <= p2)%R.
Proof.
  apply (@price_monotone_in_output wide_model (constant_model 12) [] []
           0%R 12%R [5%R] [] [[7; 9]%R] []).
  - reflexivity.
  - reflexivity.
  - lra.
Defined.

(** ** Where an error reply comes from *)

(** X9. For an object body and a model whose output is a two-dimensional
    array, the column selection of line 15 raises nothing, and an error
    reply carries [str(e)] of an exception raised by [scaler.transform] on
    the aligned row or by [model.predict] on the scaled row, or numpy's
    [IndexError] text for an output without [[0][0]]. *)
Theorem error_reply_provenance {N : Numerics}
        (set_iter : list label -> list label) (kvs : list (string * pyval))
        (s : Process) (msg : string) :
  iteration_order set_iter ->
  dict_keys_distinct kvs ->
  fst (dispatch_request set_iter (JsonBody (PDict kvs)) s)
  = mkResponse 400 (JsonObject [("error", JString msg)]) ->
  let aligned :=
    mkFrame (map LStr (feature_names_in_ (scaler s)))
            [map (aligned_cell kvs) (feature_names_in_ (scaler s))] in
  fst (aligned_frame set_iter (List.length (heap s)) (scaler s)
         (snd (request_json (JsonBody (PDict kvs)) s))) = Ok aligned
  /\ ((exists e, transform (scaler s) aligned = Raise e /\ msg = py_str e)
      \/ (exists a e, transform (scaler s) aligned = Ok a
                      /\ model_predict (model s) a = Raise e /\ msg = py_str e)
      \/ (exists a out, transform (scaler s) aligned = Ok a
                        /\ model_predict (model s) a = Ok out
                        /\ (out = [] \/ exists others, out = [] :: others)
                        /\ msg = "index 0 is out of bounds for axis 0 with size 0")).
Proof.
  intros Hord Hnd Hr. cbv zeta. split.
  { simpl. rewrite (aligned_frame_json (PDict kvs) s (scaler s) Hord).
    now rewrite aligned_closed_form_dict. }
  rewrite dispatch_json in Hr by assumption. unfold closed_answer in Hr.
  rewrite aligned_closed_form_dict in Hr by assumption.
  destruct (transform (scaler s) _) as [a|e] eqn:Ht; simpl in Hr.
  2:{ left. exists e. split; [reflexivity|].
      unfold error_reply, with_status, jsonify in Hr. simpl in Hr.
      now injection Hr as <-. }
  right. unfold inference in Hr.
  destruct (model_predict (model s) a) as [out|e] eqn:Hp; simpl in Hr.
  2:{ left. exists a, e. split; [reflexivity|]. split; [assumption|].
      unfold error_reply, with_status, jsonify in Hr. simpl in Hr.
      now injection Hr as <-. }
  right. exists a, out. split; [reflexivity|]. split; [assumption|].
  clear Hp. destruct out as [|[|y rest] others]; simpl in Hr;
    unfold error_reply, with_status, jsonify in Hr; simpl in Hr.
  - split; [now left | now injection Hr as <-].
  - split; [right; now exists others | now injection Hr as <-].
  - discriminate.
Qed.

Lemma error_reply_provenance_witness :
  fst (aligned_frame identity_order 0 (unit_scaler sample_names)
         (snd (request_json (JsonBody (PDict sample_bad_record))
                            (sample_process (constant_model 12)))))
  = Ok (mkFrame [LStr "area"; LStr "rooms"] [[PStr "large"; PInt 0]])
  /\ ((exists e, transform (unit_scaler sample_names)
                   (mkFrame [LStr "area"; LStr "rooms"] [[PStr "large"; PInt 0]])
                 = Raise e
                 /\ "could not convert value to float" = py_str e)
      \/ (exists a e, transform (unit_scaler sample_names)
                        (mkFrame [LStr "area"; LStr "rooms"] [[PStr "large"; PInt 0]])
                      = Ok a
                      /\ model_predict (constant_model 12) a = Raise e
                      /\ "could not convert value to float" = py_str e)
      \/ (exists a out, transform (unit_scaler sample_names)
                          (mkFrame [LStr "area"; LStr "rooms"] [[PStr "large"; PInt 0]])
                        = Ok a
                        /\ model_predict (constant_model 12) a = Ok out
                        /\ (out = [] \/ exists others, out = [] :: others)
                        /\ "could not convert value to float"
                           = "index 0 is out of bounds for axis 0 with size 0")).
Proof.
  apply (@error_reply_provenance _ identity_order sample_bad_record
           (sample_process (constant_model 12))
           "could not convert value to float").
  - apply identity_order_ok.
  - unfold dict_keys_distinct. simpl. repeat constructor. simpl. tauto.
  - reflexivity.
Defined.
